(** * ts-minifier: a shallow embedding of [src/compressor.ts]

    The compressor reads TypeScript files, rewrites their syntax trees
    according to a compression level, prints them back and writes the
    results under [dist].  The embedding follows [TypeScriptCompressor]
    method by method.  The libraries it calls ([typescript], [path], [fs],
    [glob], [source-map]) are modelled next to it, each in a module of its
    own named after the import in the source. *)

From Stdlib Require Import String Ascii List Bool Arith ZArith Lia.
From Stdlib Require Import DecimalString DecimalNat Floats Uint63.
Import ListNotations.
Open Scope list_scope.
Open Scope string_scope.

Set Implicit Arguments.

(** ** Values shared by every part *)

(** A JavaScript string.  One [ascii] stands for one UTF-16 code unit, so
    [String.length] is what [.length] returns: a count of characters of the
    decoded text, not of the bytes of the file it was read from. *)
Definition jsstring := string.

(** [`${n}`] for a non-negative integer [n]. *)
Definition decimal (n : nat) : string := NilZero.string_of_uint (Nat.to_uint n).

(** [xs.join(sep)]. *)
Fixpoint join (sep : string) (xs : list string) : string :=
  match xs with
  | [] => ""
  | [x] => x
  | x :: rest => x ++ sep ++ join sep rest
  end.

(** [s.split('/')]: the pieces between slashes, the empty ones included. *)
Fixpoint split_slash (s : string) : list string :=
  match s with
  | EmptyString => [""]
  | String c r =>
      if Ascii.eqb c "/"
      then "" :: split_slash r
      else match split_slash r with
           | h :: t => String c h :: t
           | [] => [String c ""]
           end
  end.

Definition nonempty (s : string) : bool := negb (String.eqb s "").

Definition starts_with_slash (s : string) : bool :=
  match s with
  | String c _ => Ascii.eqb c "/"
  | EmptyString => false
  end.

Fixpoint ends_with_slash (s : string) : bool :=
  match s with
  | EmptyString => false
  | String c EmptyString => Ascii.eqb c "/"
  | String _ r => ends_with_slash r
  end.

Fixpoint has_slash (s : string) : bool :=
  match s with
  | EmptyString => false
  | String c r => Ascii.eqb c "/" || has_slash r
  end.

(** [hay.includes(needle)]. *)
Fixpoint contains (needle hay : string) : bool :=
  String.prefix needle hay
  || match hay with
     | EmptyString => false
     | String _ rest => contains needle rest
     end.

(** [s.endsWith(suffix)]. *)
Fixpoint ends_with (suffix s : string) : bool :=
  String.eqb suffix s
  || match s with
     | EmptyString => false
     | String _ rest => ends_with suffix rest
     end.

(** The number of line feeds in a text. *)
Fixpoint lineFeeds (s : string) : nat :=
  match s with
  | EmptyString => 0
  | String c rest =>
      (if Ascii.eqb c (ascii_of_nat 10) then 1 else 0) + lineFeeds rest
  end.

(** Errors the file-system calls of the source can throw. *)
Inductive Error : Set :=
| ENOENT (path : string)
| EISDIR (path : string).

Inductive Result (A : Type) : Type :=
| Ok (a : A)
| Throw (e : Error).
Arguments Ok {A} a.
Arguments Throw {A} e.

Definition bind {A B} (m : Result A) (k : A -> Result B) : Result B :=
  match m with
  | Ok a => k a
  | Throw e => Throw e
  end.

Notation "x <- m ;; k" := (bind m (fun x => k))
  (at level 61, m at next level, right associativity).

(** [xs.map(f)] where [f] may throw: the first exception ends the loop, and
    [f] also receives the index. *)
Fixpoint mapi_result {A B} (f : A -> nat -> Result B) (i : nat) (xs : list A)
  : Result (list B) :=
  match xs with
  | [] => Ok []
  | x :: rest =>
      y <- f x i ;;
      ys <- mapi_result f (S i) rest ;;
      Ok (y :: ys)
  end.

(** ** Node's [path] module (POSIX flavour) *)
Module path.

(** The last non-empty piece of the path, [""] when there is none. *)
Definition basename (p : string) : string :=
  last (filter nonempty (split_slash p)) "".

(** The part of [s] from its last dot on, if [s] has a dot. *)
Fixpoint from_last_dot (s : string) : option string :=
  match s with
  | EmptyString => None
  | String c r =>
      match from_last_dot r with
      | Some e => Some e
      | None => if Ascii.eqb c "." then Some s else None
      end
  end.

(** [path.extname]: the extension of the last piece; a dot that opens the
    piece does not start an extension and [".."] has none. *)
Definition extname (p : string) : string :=
  match basename p with
  | EmptyString => ""
  | String c r =>
      if String.eqb (String c r) ".." then ""
      else match from_last_dot r with
           | Some e => e
           | None => ""
           end
  end.

(** [normalizeString]: drops empty pieces and ["."], resolves [".."]
    against the piece before it.  [acc] is the result so far, reversed. *)
Fixpoint normalizeString (allowAboveRoot : bool) (acc segs : list string)
  : list string :=
  match segs with
  | [] => rev acc
  | s :: rest =>
      if String.eqb s "" || String.eqb s "." then
        normalizeString allowAboveRoot acc rest
      else if String.eqb s ".." then
        match acc with
        | top :: acc' =>
            if String.eqb top ".."
            then normalizeString allowAboveRoot (".." :: acc) rest
            else normalizeString allowAboveRoot acc' rest
        | [] =>
            if allowAboveRoot
            then normalizeString allowAboveRoot [".."] rest
            else normalizeString allowAboveRoot [] rest
        end
      else normalizeString allowAboveRoot (s :: acc) rest
  end.

Definition normalize (p : string) : string :=
  if String.eqb p "" then "."
  else
    let isAbsolute := starts_with_slash p in
    let trailingSeparator := ends_with_slash p in
    let body := join "/" (normalizeString (negb isAbsolute) [] (split_slash p)) in
    if String.eqb body "" then
      if isAbsolute then "/" else if trailingSeparator then "./" else "."
    else
      let body' := if trailingSeparator then body ++ "/" else body in
      if isAbsolute then "/" ++ body' else body'.

(** [path.join(a, b)]. *)
Definition join2 (a b : string) : string :=
  match filter nonempty [a; b] with
  | [] => "."
  | parts => normalize (join "/" parts)
  end.

End path.

(** ** The part of the TypeScript compiler API the compressor uses *)
Module ts.

Inductive SyntaxKind : Set :=
| SourceFile | VariableStatement | VariableDeclarationList
| VariableDeclaration | Identifier | StringLiteral | NumericLiteral
| FunctionDeclaration | Parameter_ | Block | ReturnStatement
| ExpressionStatement | CallExpression | PropertyAccessExpression
| ObjectLiteralExpression | PropertyAssignment
| ImportDeclaration | ImportSpecifier | ExportDeclaration | ExportSpecifier
| TypeReference
| JSDoc | JSDocText | JSDocLink | JSDocLinkCode | JSDocLinkPlain
| JSDocNamepathType | JSDocTypeLiteral | JSDocSignature | JSDocTag
| OtherKind.

Definition SyntaxKind_eqb (a b : SyntaxKind) : bool :=
  match a, b with
  | SourceFile, SourceFile | VariableStatement, VariableStatement
  | VariableDeclarationList, VariableDeclarationList
  | VariableDeclaration, VariableDeclaration | Identifier, Identifier
  | StringLiteral, StringLiteral | NumericLiteral, NumericLiteral
  | FunctionDeclaration, FunctionDeclaration | Parameter_, Parameter_
  | Block, Block | ReturnStatement, ReturnStatement
  | ExpressionStatement, ExpressionStatement | CallExpression, CallExpression
  | PropertyAccessExpression, PropertyAccessExpression
  | ObjectLiteralExpression, ObjectLiteralExpression
  | PropertyAssignment, PropertyAssignment
  | ImportDeclaration, ImportDeclaration | ImportSpecifier, ImportSpecifier
  | ExportDeclaration, ExportDeclaration | ExportSpecifier, ExportSpecifier
  | TypeReference, TypeReference
  | JSDoc, JSDoc | JSDocText, JSDocText | JSDocLink, JSDocLink
  | JSDocLinkCode, JSDocLinkCode | JSDocLinkPlain, JSDocLinkPlain
  | JSDocNamepathType, JSDocNamepathType
  | JSDocTypeLiteral, JSDocTypeLiteral | JSDocSignature, JSDocSignature
  | JSDocTag, JSDocTag | OtherKind, OtherKind => true
  | _, _ => false
  end.

(** A comment as the scanner finds it in the source text, with the number
    of line breaks between its end and what follows it (the next comment
    or token), which the printer reads off the text.  A documentation
    block is a multi-line comment that opens with a slash and two stars. *)
Inductive CommentKind : Set :=
| SingleLineCommentTrivia
| MultiLineCommentTrivia.

Record CommentRange : Set := mkComment {
  commentKind : CommentKind;
  commentText : string;
  lineBreaksAfter : nat
}.


(** A node of the tree.  [parsed] tells a node that came out of
    [createSourceFile] (or is the update of one, which keeps its text
    range) from one that [factory] made, whose position is [-1].
    [text] is the identifier, the literal as written, the keyword of a
    declaration list or, for a source file, the name of the file.  [leading] and [trailing] are the comments the
    printer finds in the source text around a parsed node. *)
#[local] Unset Elimination Schemes.
Inductive Node : Set :=
  mkNode (kind : SyntaxKind) (parsed : bool) (text : string)
         (leading trailing : list CommentRange) (children : list Node).

#[local] Set Elimination Schemes.

Definition kind (n : Node) : SyntaxKind :=
  match n with mkNode k _ _ _ _ _ => k end.
Definition text (n : Node) : string :=
  match n with mkNode _ _ t _ _ _ => t end.

(** What [createSourceFile] returns: it never throws on bad syntax, it
    recovers and lists what it found in [parseDiagnostics]. *)
Record Diagnostic : Set := mkDiagnostic {
  start : nat;
  messageText : string
}.

Record SourceFileNode : Set := mkSourceFile {
  fileName : string;
  root : Node;
  parseDiagnostics : list Diagnostic
}.

Definition isIdentifier (n : Node) : bool := SyntaxKind_eqb (kind n) Identifier.

(** [ts.isVariableDeclaration(node.parent)]: the parent is passed as the
    kind of the node the walk came from, [None] at the root. *)
Definition isVariableDeclaration (parent : option SyntaxKind) : bool :=
  match parent with
  | Some k => SyntaxKind_eqb k VariableDeclaration
  | None => false
  end.

Definition isJSDocCommentContainingNode (n : Node) : bool :=
  match kind n with
  | JSDoc | JSDocNamepathType | JSDocText | JSDocLink | JSDocLinkCode
  | JSDocLinkPlain | JSDocTag | JSDocTypeLiteral | JSDocSignature => true
  | _ => false
  end.

(** [ts.factory.createIdentifier(text)]. *)
Definition createIdentifier (name : string) : Node :=
  mkNode Identifier false name [] [] [].

(** [ts.visitEachChild(node, visitor, context)]: the node with every
    child replaced by what the visitor returns for it. *)
Definition visitEachChild (n : Node) (visitor : Node -> Node) : Node :=
  match n with
  | mkNode k p t l tr cs => mkNode k p t l tr (map visitor cs)
  end.

End ts.

(** ** The printer of the TypeScript compiler *)
Module printer.
Import ts.

(** What the printer writes: pieces of code and comments. *)
Inductive Emitted : Set :=
| Code (s : string)
| CommentOut (c : CommentRange).

Definition nl : string := String (ascii_of_nat 10) "".

Fixpoint sep_by (sep : string) (parts : list (list Emitted)) : list Emitted :=
  match parts with
  | [] => []
  | [p] => p
  | p :: rest => (p ++ Code sep :: sep_by sep rest)%list
  end.

(** The layout of a node of kind [k] with text [t], once its children are
    printed ([parts], each with the kind of the child).  Variable
    statements, expression statements, calls, property accesses and
    returns are laid out as the printer does.  The other kinds (functions,
    parameters, blocks, imports, ...) are not: they stand for their text
    and their children with a space between them, which keeps the pieces
    and their order, not the punctuation and the indentation. *)
Definition layout (k : SyntaxKind) (t : string)
           (parts : list (SyntaxKind * list Emitted)) : list Emitted :=
  let bodies := map snd parts in
  match k with
  | SourceFile => concat (map (fun b => b ++ [Code nl])%list bodies)
  | VariableStatement | ExpressionStatement =>
      (concat bodies ++ [Code ";"])%list
  | VariableDeclarationList => (Code t :: Code " " :: sep_by ", " bodies)%list
  | VariableDeclaration =>
      match parts with
      | [] => []
      | (_, name) :: rest =>
          (name ++ concat (map (fun '(ck, b) =>
             if SyntaxKind_eqb ck TypeReference
             then Code ": " :: b else Code " = " :: b) rest))%list
      end
  | ReturnStatement =>
      match bodies with
      | [] => [Code "return"; Code ";"]
      | _ => (Code "return" :: Code " " :: concat bodies ++ [Code ";"])%list
      end
  | CallExpression =>
      match bodies with
      | [] => []
      | callee :: args => (callee ++ Code "(" :: sep_by ", " args ++ [Code ")"])%list
      end
  | PropertyAccessExpression => sep_by "." bodies
  | _ =>
      match t with
      | EmptyString => sep_by " " bodies
      | _ => sep_by " " ([Code t] :: bodies)
      end
  end.

(** The comments around a node are written only for nodes that have a
    place in the source text, and only when [removeComments] is off.  A
    comment in front of a node is followed by a line break if the source
    has one there, by a space otherwise; one behind a node is preceded by
    a space. *)
Definition emitComments (removeComments : bool) (isParsed : bool)
           (before : bool) (cs : list CommentRange) : list Emitted :=
  if removeComments || negb isParsed then []
  else flat_map (fun c =>
                   if before
                   then [CommentOut c;
                         Code (if Nat.ltb 0 (lineBreaksAfter c) then nl else " ")]
                   else [Code " "; CommentOut c]) cs.

Fixpoint emit (removeComments : bool) (n : Node) : list Emitted :=
  match n with
  | mkNode k p t l tr cs =>
      (emitComments removeComments p true l
       ++ layout k t (map (fun c => (kind c, emit removeComments c)) cs)
       ++ emitComments removeComments p false tr)%list
  end.

Definition piece (e : Emitted) : string :=
  match e with
  | Code s => s
  | CommentOut c => commentText c
  end.

Definition render (es : list Emitted) : string :=
  String.concat "" (map piece es).

(** The comments among what was written. *)
Fixpoint commentsOf (es : list Emitted) : list CommentRange :=
  match es with
  | [] => []
  | Code _ :: rest => commentsOf rest
  | CommentOut c :: rest => c :: commentsOf rest
  end.

(** *** What [removeComments] does not remove

    With [removeComments] on, the printer still writes two kinds of
    comments, both from the head of the file (the comments in front of its
    first token): pinned comments that stand detached there, and, in a
    declaration file, the triple-slash directives. *)

(** A pinned comment: a star and an exclamation mark follow its slash. *)
Definition isPinnedComment (c : CommentRange) : bool :=
  String.prefix "/*!" (commentText c).

(** A triple-slash directive: a reference or an AMD directive. *)
Definition isTripleSlashDirective (c : CommentRange) : bool :=
  match commentKind c with
  | SingleLineCommentTrivia =>
      String.prefix "///" (commentText c)
      && (contains "<reference" (commentText c)
          || contains "<amd-" (commentText c))
  | MultiLineCommentTrivia => false
  end.

(** The comments in front of the first token of a tree. *)
Fixpoint headComments (n : Node) : list CommentRange :=
  match n with
  | mkNode _ _ _ l _ cs =>
      (l ++ match cs with
            | c :: _ => headComments c
            | [] => []
            end)%list
  end.

(** A source file is a declaration file when its base name ends in [.ts]
    and holds [.d.] *)
Definition isDeclarationFile (n : Node) : bool :=
  SyntaxKind_eqb (kind n) SourceFile
  && ends_with ".ts" (path.basename (text n))
  && contains ".d." (path.basename (text n)).

(** A prologue directive: an expression statement that is a string. *)
Definition isPrologueDirective (n : Node) : bool :=
  match n with
  | mkNode ExpressionStatement _ _ _ _ (mkNode StringLiteral _ _ _ _ _ :: _) => true
  | _ => false
  end.

(** Each comment with the lines it starts and ends on, counted from
    [line], the line the first one starts on. *)
Fixpoint place (line : nat) (cs : list CommentRange)
  : list (CommentRange * (nat * nat)) :=
  match cs with
  | [] => []
  | c :: rest =>
      let last := line + lineFeeds (commentText c) in
      (c, (line, last)) :: place (last + lineBreaksAfter c) rest
  end.

(** The line of the first token behind the comments. *)
Fixpoint tokenLine (line : nat) (cs : list CommentRange) : nat :=
  match cs with
  | [] => line
  | c :: rest =>
      tokenLine (line + lineFeeds (commentText c) + lineBreaksAfter c) rest
  end.

(** The comments up to the first one that an empty line separates from
    the comment before it. *)
Fixpoint detachedRun (previous : option nat)
         (placed : list (CommentRange * (nat * nat)))
  : list (CommentRange * (nat * nat)) :=
  match placed with
  | [] => []
  | (c, (first, last)) :: rest =>
      match previous with
      | Some line =>
          if Nat.leb (line + 2) first then []
          else (c, (first, last)) :: detachedRun (Some last) rest
      | None => (c, (first, last)) :: detachedRun (Some last) rest
      end
  end.

(** [emitDetachedComments] with [removeComments] on: of the comments at
    the head of the file only the pinned ones count; those that follow
    one another without an empty line are written if an empty line stands
    between the last of them and the first token.  Nothing is written for
    a file that opens with a prologue directive. *)
Definition pinnedHeader (n : Node) : list CommentRange :=
  match n with
  | mkNode _ p _ _ _ cs =>
      let applies :=
        p && match cs with
             | [] => true
             | first :: _ =>
                 negb (isPrologueDirective first)
                 || negb (match first with mkNode _ q _ _ _ _ => q end)
             end in
      let head := headComments n in
      let run :=
        detachedRun None (filter (fun c => isPinnedComment (fst c)) (place 0 head)) in
      match rev run with
      | (_, (_, last)) :: _ =>
          if applies && Nat.leb (last + 2) (tokenLine 0 head)
          then map fst run else []
      | [] => []
      end
  end.

(** [emitTripleSlashDirectives]: in a declaration file the directives at
    the head are written anew from what the parser read in them; here
    they are written as they stand. *)
Definition directives (n : Node) : list CommentRange :=
  if isDeclarationFile n
  then filter isTripleSlashDirective (headComments n)
  else [].

(** What the printer writes for a source file. *)
Definition emitFile (removeComments : bool) (n : Node) : list Emitted :=
  if removeComments
  then (flat_map (fun c => [CommentOut c; Code nl]) (pinnedHeader n)
        ++ flat_map (fun c => [CommentOut c; Code nl]) (directives n)
        ++ emit true n)%list
  else emit false n.

(** [ts.createPrinter({ removeComments }).printFile(node)]. *)
Definition printFile (removeComments : bool) (n : Node) : string :=
  render (emitFile removeComments n).

End printer.

(** ** The [source-map] generator *)
Module sourcemap.

Record Mapping : Set := mkMapping {
  generatedLine : nat;
  generatedColumn : nat;
  originalLine : nat;
  originalColumn : nat;
  source : string
}.

Record SourceMapGenerator : Set := mkGenerator {
  file : string;
  mappings : list Mapping
}.

(** [new SourceMapGenerator({ file })]. *)
Definition create (f : string) : SourceMapGenerator :=
  {| file := f; mappings := [] |}.

(** [generator.addMapping(m)]. *)
Definition addMapping (g : SourceMapGenerator) (m : Mapping) : SourceMapGenerator :=
  {| file := file g; mappings := (mappings g ++ [m])%list |}.

(** What [generator.toString()] serialises: the JSON text of this record.
    The text is never empty, so as a JavaScript value it is truthy. *)
Record RawSourceMap : Set := mkRaw {
  version : nat;
  rawFile : string;
  rawMappings : list Mapping
}.

Definition toString (g : SourceMapGenerator) : RawSourceMap :=
  {| version := 3; rawFile := file g; rawMappings := mappings g |}.

End sourcemap.

(** ** Node's [fs] module *)
Module fs.

Inductive Entry : Set :=
| Directory
| RegularFile (data : string)
| Special.

(** The paths that exist, in the order a listing yields them. *)
Definition FileSystem := list (string * Entry).

Fixpoint lookup (fsys : FileSystem) (p : string) : option Entry :=
  match fsys with
  | [] => None
  | (q, e) :: rest => if String.eqb q p then Some e else lookup rest p
  end.

Definition statSync (fsys : FileSystem) (p : string) : Result Entry :=
  match lookup fsys p with
  | Some e => Ok e
  | None => Throw (ENOENT p)
  end.

Definition isDirectory (e : Entry) : bool :=
  match e with Directory => true | _ => false end.

Definition isFile (e : Entry) : bool :=
  match e with RegularFile _ => true | _ => false end.

(** [fs.readFileSync(p, 'utf-8')]: the decoded text of a regular file. *)
Definition readFileSync (fsys : FileSystem) (p : string) : Result string :=
  match lookup fsys p with
  | Some (RegularFile data) => Ok data
  | Some _ => Throw (EISDIR p)
  | None => Throw (ENOENT p)
  end.

(** What [fs.writeFileSync] is asked to store. *)
Inductive Data : Set :=
| Text (s : string)
| MapText (maps : list sourcemap.RawSourceMap).

Definition Write : Set := (string * Data)%type.

End fs.

(** ** The [glob] package *)
Module glob.

(** A piece of a pattern against a piece of a path; a star stands for
    any run of characters.  Of the pattern language only the star and the
    double star are read: braces, question marks and character classes
    are taken as the characters they are. *)
Fixpoint wild (pat : string) : string -> bool :=
  match pat with
  | EmptyString => fun s => String.eqb s ""
  | String c pr =>
      if Ascii.eqb c "*" then
        fix star (s : string) : bool :=
          wild pr s || match s with
                       | EmptyString => false
                       | String _ sr => star sr
                       end
      else fun s =>
        match s with
        | String d sr => Ascii.eqb c d && wild pr sr
        | EmptyString => false
        end
  end.

Definition hidden (s : string) : bool := String.prefix "." s.

Definition segMatch (dot : bool) (pat s : string) : bool :=
  (dot || negb (hidden s) || hidden pat) && wild pat s.

(** Pieces of a pattern against pieces of a path; two stars stand for
    any number of pieces. *)
Fixpoint pmatch (dot : bool) (pats : list string) : list string -> bool :=
  match pats with
  | [] => fun segs => match segs with [] => true | _ => false end
  | p :: pr =>
      if String.eqb p "**" then
        fix star (segs : list string) : bool :=
          pmatch dot pr segs
          || match segs with
             | [] => false
             | s :: sr => (dot || negb (hidden s)) && star sr
             end
      else fun segs =>
        match segs with
        | s :: sr => segMatch dot p s && pmatch dot pr sr
        | [] => false
        end
  end.

Definition segments (p : string) : list string :=
  ((if starts_with_slash p then [""] else [])
     ++ filter nonempty (split_slash p))%list.

Definition minimatch (dot : bool) (pattern p : string) : bool :=
  pmatch dot (segments pattern) (segments p).

(** [glob.sync(pattern, { ignore })]: the existing paths that match the
    pattern and none of the ignore patterns, in the order of the file
    system.  Patterns and paths are compared as they are written: a
    pattern relative to the working directory matches no absolute
    path. *)
Definition sync (fsys : fs.FileSystem) (pattern : string)
           (ignore : list string) : list string :=
  filter (fun p => minimatch false pattern p
                   && negb (existsb (fun ig => minimatch true ig p) ignore))
         (map fst fsys).

End glob.

(** ** [src/types.ts] *)

Inductive CompressionLevel : Set := NONE | MINIMAL | AGGRESSIVE.

Inductive OutputFormat : Set := single | multiple.

(** A regular expression, by its source text. *)
Definition RegExp : Set := string.

Record CompressOptions : Set := mkOptions {
  level : CompressionLevel;
  outputFormat : OutputFormat;
  generateSourceMaps : option bool;
  customNamePatterns : option (list RegExp);
  excludePatterns : option (list string);
  input : option (list string)
}.

Record Stats : Set := mkStats {
  originalSize : nat;
  compressedSize : nat;
  compressionRatio : float
}.

Record CompressResult : Set := mkResult {
  outputFiles : list string;
  sourceMapFiles : option (list string);
  stats : Stats
}.

(** ** [src/compressor.ts] *)

(** What [compressFile] returns. *)
Record FileResult : Set := mkFileResult {
  originalContent : string;
  transformedContent : string;
  sourceMap : option sourcemap.RawSourceMap;
  originalPath : string
}.

(** An optional boolean used as a condition: [undefined] is falsy. *)
Definition truthy (b : option bool) : bool :=
  match b with Some true => true | _ => false end.

(** A string used as a condition: the empty string is falsy. *)
Definition truthy_string (s : string) : bool := nonempty s.

Definition level_eqb (a b : CompressionLevel) : bool :=
  match a, b with
  | NONE, NONE | MINIMAL, MINIMAL | AGGRESSIVE, AGGRESSIVE => true
  | _, _ => false
  end.

(** A length as a JavaScript number.  Lengths are integers far below
    [2^53], where a double holds them exactly. *)
Definition number_of_nat (n : nat) : float :=
  PrimFloat.of_uint63 (Uint63.of_Z (Z.of_nat n)).

(** [shortenName]: an underscore and the length of the name. *)
Definition shortenName (name : string) : string :=
  "_" ++ decimal (String.length name).

(** [minimalCompression]: documentation nodes are handed back as they
    are, every other node has its children rewritten. *)
Fixpoint minimalCompression (node : ts.Node) : ts.Node :=
  if ts.isJSDocCommentContainingNode node
     || ts.SyntaxKind_eqb (ts.kind node) ts.JSDoc
  then node
  else ts.visitEachChild node minimalCompression.

(** [aggressiveCompression]: an identifier whose parent is a variable
    declaration becomes a fresh identifier named by [shortenName]; every
    other node has its children rewritten, each with this node as its
    parent. *)
Fixpoint aggressiveCompression (parent : option ts.SyntaxKind) (node : ts.Node)
  : ts.Node :=
  if ts.isIdentifier node && ts.isVariableDeclaration parent
  then ts.createIdentifier (shortenName (ts.text node))
  else
    ts.visitEachChild node (aggressiveCompression (Some (ts.kind node))).

(** The visitor of [createTransformer].  [ts.visitNode] calls it on the
    source file, which has no parent. *)
Fixpoint visitor (options : CompressOptions) (node : ts.Node) : ts.Node :=
  match level options with
  | MINIMAL => minimalCompression node
  | AGGRESSIVE => aggressiveCompression None node
  | NONE => ts.visitEachChild node (visitor options)
  end.

(** [createTransformer] is handed the generator, and hands it to nothing:
    neither rewriter receives it, so it comes back as it went in. *)
Definition createTransformer (options : CompressOptions)
           (sourceMapGenerator : sourcemap.SourceMapGenerator)
           (sourceFile : ts.Node)
  : ts.Node * sourcemap.SourceMapGenerator :=
  (visitor options sourceFile, sourceMapGenerator).

(** What the printer writes for the transformed file. *)
Definition transformEmitted (sourceFile : ts.Node) (options : CompressOptions)
  : list printer.Emitted :=
  printer.emitFile (negb (level_eqb (level options) NONE))
                   (visitor options sourceFile).

(** [transformSourceFile], with the generator after the transformation. *)
Definition transformSourceFile (sourceFile : ts.Node) (options : CompressOptions)
           (sourceMapGenerator : sourcemap.SourceMapGenerator)
  : string * sourcemap.SourceMapGenerator :=
  let '(transformed, generator) :=
    createTransformer options sourceMapGenerator sourceFile in
  (printer.printFile (negb (level_eqb (level options) NONE)) transformed,
   generator).

Section Compressor.

(** The world the compressor runs in: the files that exist, the working
    directory of the process, and the parser.  The [mkdirSync] of the
    output directory is left out; what [writeFileSync] is asked to write
    is returned next to the result.

    The calls to the logger are left out too.  They write to the console,
    and one of them can throw: [compressFile] opens with
    [logger.progress(currentIndex + 1, totalFiles, ...)], which draws its
    bar also when it prints nothing, and [createProgressBar] (module
    [Logger]) throws once the bar is longer than its width, or when
    [totalFiles] is 0.  [compressFiles] passes an index below the number
    of files, for which the percentage is at most 100 and the bar fits.
    So [compressFile] below is the method as [compressFiles] calls it;
    for other indices it says nothing of that exception. *)
Variable fsys : fs.FileSystem.
Variable cwd : string.
Variable createSourceFile : string -> string -> ts.SourceFileNode.

(** The loop of [resolveInputFiles], [files] being the list so far. *)
Fixpoint resolveLoop (excluded : option (list string)) (files : list string)
         (inputPaths : list string) : Result (list string) :=
  match inputPaths with
  | [] => Ok files
  | inputPath :: rest =>
      stats <- fs.statSync fsys inputPath ;;
      if fs.isDirectory stats then
        let dirFiles :=
          glob.sync fsys (inputPath ++ "/**/*.ts")
                    (match excluded with Some ps => ps | None => [] end) in
        resolveLoop excluded (files ++ dirFiles)%list rest
      else if fs.isFile stats && String.eqb (path.extname inputPath) ".ts" then
        resolveLoop excluded (files ++ [inputPath])%list rest
      else
        resolveLoop excluded files rest
  end.

Definition resolveInputFiles (inputPaths : list string)
           (excluded : option (list string)) : Result (list string) :=
  resolveLoop excluded [] inputPaths.

Definition compressFile (filePath : string) (options : CompressOptions)
           (currentIndex totalFiles : nat) : Result FileResult :=
  sourceCode <- fs.readFileSync fsys filePath ;;
  let sourceFile := createSourceFile filePath sourceCode in
  let sourceMapGenerator := sourcemap.create (path.basename filePath) in
  let '(transformed, generator) :=
    transformSourceFile (ts.root sourceFile) options sourceMapGenerator in
  Ok {| originalContent := sourceCode;
        transformedContent := transformed;
        sourceMap := if truthy (generateSourceMaps options)
                     then Some (sourcemap.toString generator)
                     else None;
        originalPath := filePath |}.

(** The [forEach] of the per-file branch of [generateOutput]: the output
    paths, the map paths and the writes, in order. *)
Fixpoint writeEach (outputDir : string) (options : CompressOptions)
         (index : nat) (files : list FileResult)
  : list string * list string * list fs.Write :=
  match files with
  | [] => ([], [], [])
  | file :: rest =>
      let outputPath :=
        path.join2 outputDir
          (path.basename
             (if truthy_string (originalPath file) then originalPath file
              else "compressed_" ++ decimal index ++ ".ts")) in
      let '(outs, maps, writes) := writeEach outputDir options (S index) rest in
      match truthy (generateSourceMaps options), sourceMap file with
      | true, Some sm =>
          let sourceMapPath := outputPath ++ ".map" in
          (outputPath :: outs, sourceMapPath :: maps,
           (outputPath, fs.Text (transformedContent file))
             :: (sourceMapPath, fs.MapText [sm]) :: writes)
      | _, _ =>
          (outputPath :: outs, maps,
           (outputPath, fs.Text (transformedContent file)) :: writes)
      end
  end.

Fixpoint definedMaps (files : list FileResult) : list sourcemap.RawSourceMap :=
  match files with
  | [] => []
  | file :: rest =>
      match sourceMap file with
      | Some sm => sm :: definedMaps rest
      | None => definedMaps rest
      end
  end.

(** [generateOutput]: the result record and what was written to disk. *)
Definition generateOutput (transformedFiles : list FileResult)
           (options : CompressOptions) : CompressResult * list fs.Write :=
  let totalOriginalSize :=
    fold_left (fun sum file => sum + String.length (originalContent file))
              transformedFiles 0 in
  let totalCompressedSize :=
    fold_left (fun sum file => sum + String.length (transformedContent file))
              transformedFiles 0 in
  let outputDir := path.join2 cwd "dist" in
  let '(outs, maps, writes) :=
    match outputFormat options with
    | single =>
        let combinedContent :=
          join printer.nl (map transformedContent transformedFiles) in
        let outputPath := path.join2 outputDir "compressed.ts" in
        if truthy (generateSourceMaps options) then
          let sourceMapPath := outputPath ++ ".map" in
          ([outputPath], [sourceMapPath],
           [(outputPath, fs.Text combinedContent);
            (sourceMapPath, fs.MapText (definedMaps transformedFiles))])
        else ([outputPath], [], [(outputPath, fs.Text combinedContent)])
    | multiple => writeEach outputDir options 0 transformedFiles
    end in
  ({| outputFiles := outs;
      sourceMapFiles :=
        if truthy (generateSourceMaps options) then Some maps else None;
      stats := {| originalSize := totalOriginalSize;
                  compressedSize := totalCompressedSize;
                  compressionRatio :=
                    PrimFloat.sub PrimFloat.one
                      (PrimFloat.div (number_of_nat totalCompressedSize)
                                     (number_of_nat totalOriginalSize)) |} |},
   writes).

(** The per-file results of a batch, in the order of the resolved list. *)
Definition transformFiles (inputFiles : list string) (options : CompressOptions)
  : Result (list FileResult) :=
  mapi_result (fun file index =>
                 compressFile file options index (List.length inputFiles))
              0 inputFiles.

Definition compressFiles (inputPaths : list string) (options : CompressOptions)
  : Result (CompressResult * list fs.Write) :=
  inputFiles <- resolveInputFiles inputPaths (excludePatterns options) ;;
  transformedFiles <- transformFiles inputFiles options ;;
  Ok (generateOutput transformedFiles options).

End Compressor.

(** ** [src/logger.ts] *)
Module Logger.

(** How a call ends: with a value, or with the [RangeError] that
    [String.prototype.repeat] throws. *)
Inductive Completion (A : Type) : Type :=
| Normal (a : A)
| RangeError.
Arguments Normal {A} a.
Arguments RangeError {A}.

Definition two52 : float := 4503599627370496%float.

(** The integer nearest to [x], for [0 <= x < 2^52] (ties to even). *)
Definition nearest (x : float) : float :=
  PrimFloat.sub (PrimFloat.add x two52) two52.

(** [Math.floor] for a finite [x] with [|x| < 2^52]. *)
Definition floor (x : float) : float :=
  if PrimFloat.ltb x 0%float then
    let y := PrimFloat.opp x in
    let r := nearest y in
    PrimFloat.opp (if PrimFloat.ltb r y then PrimFloat.add r 1%float else r)
  else
    let r := nearest x in
    if PrimFloat.ltb x r then PrimFloat.sub r 1%float else r.

(** [Math.round]: the nearest integer, a tie going up; NaN, the
    infinities and the doubles from [2^52] on are their own rounding. *)
Definition round (x : float) : float :=
  if PrimFloat.is_nan x || PrimFloat.is_infinity x
     || PrimFloat.leb two52 (PrimFloat.abs x)
  then x
  else
    let f := floor x in
    if PrimFloat.leb 0.5%float (PrimFloat.sub x f)
    then PrimFloat.add f 1%float else f.

(** [ToIntegerOrInfinity]: NaN is 0, a finite double is cut towards 0. *)
Inductive IntegerOrInfinity : Set :=
| Finite (z : Z)
| PlusInfinity
| MinusInfinity.

Definition toIntegerOrInfinity (x : float) : IntegerOrInfinity :=
  match Prim2SF x with
  | S754_zero _ => Finite 0
  | S754_nan => Finite 0
  | S754_infinity negative => if negative then MinusInfinity else PlusInfinity
  | S754_finite negative m e =>
      let magnitude :=
        if (0 <=? e)%Z then (Z.pos m * 2 ^ e)%Z
        else Z.quot (Z.pos m) (2 ^ (- e)) in
      Finite (if negative then (- magnitude)%Z else magnitude)
  end.

Fixpoint copies (n : nat) (s : string) : string :=
  match n with
  | O => ""
  | S k => s ++ copies k s
  end.

(** [s.repeat(count)]. *)
Definition repeat (s : string) (count : float) : Completion string :=
  match toIntegerOrInfinity count with
  | Finite z => if (z <? 0)%Z then RangeError else Normal (copies (Z.to_nat z) s)
  | PlusInfinity | MinusInfinity => RangeError
  end.

(** [createProgressBar(percentage, width)]; the caller passes no width,
    which makes it 30. *)
Definition createProgressBar (percentage width : float) : Completion string :=
  let completed :=
    round (PrimFloat.div (PrimFloat.mul width percentage) 100%float) in
  let remaining := PrimFloat.sub width completed in
  match repeat "=" completed with
  | RangeError => RangeError
  | Normal filled =>
      match repeat " " remaining with
      | RangeError => RangeError
      | Normal blank => Normal ("[" ++ filled ++ blank ++ "]")
      end
  end.

End Logger.

(** ** [src/cli.ts] *)
Module cli.

(** What [program.opts()] returns. *)
Record ProgramOpts : Set := mkOpts {
  input : option (list string);
  output : string;
  level : string;
  format : string;
  sourceMaps : bool;
  verbose : bool;
  config : option string
}.

(** The configuration file, read as a [Partial<CompressOptions>]; the
    fields that [main] never reads are part of it all the same. *)
Record Config : Set := mkConfig {
  configLevel : option CompressionLevel;
  configOutputFormat : option OutputFormat;
  configGenerateSourceMaps : option bool;
  configCustomNamePatterns : option (list RegExp);
  configExcludePatterns : option (list string);
  configInput : option (list string)
}.

Definition emptyConfig : Config := mkConfig None None None None None None.

(** The keys of the object that the enum [CompressionLevel] compiles to. *)
Definition enumMember (key : string) : option CompressionLevel :=
  if String.eqb key "NONE" then Some NONE
  else if String.eqb key "MINIMAL" then Some MINIMAL
  else if String.eqb key "AGGRESSIVE" then Some AGGRESSIVE
  else None.

(** The keys that every object inherits from [Object.prototype]; the
    operator [in] finds them too. *)
Definition inheritedKeys : list string :=
  ["constructor"; "__defineGetter__"; "__defineSetter__"; "hasOwnProperty";
   "__lookupGetter__"; "__lookupSetter__"; "isPrototypeOf";
   "propertyIsEnumerable"; "toString"; "valueOf"; "__proto__";
   "toLocaleString"].

(** [key in CompressionLevel]. *)
Definition inCompressionLevel (key : string) : bool :=
  match enumMember key with
  | Some _ => true
  | None => existsb (String.eqb key) inheritedKeys
  end.

(** The level that [main] puts in the options: [CompressionLevel[key]]
    when the key is in the enum object, MINIMAL otherwise.  For an
    inherited key the value is not a level, and there is no options
    record to speak of. *)
Definition levelOf (key : string) : option CompressionLevel :=
  if inCompressionLevel key then enumMember key else Some MINIMAL.

(** The options record that [main] builds from the command line and the
    configuration file. *)
Definition compressOptions (opts : ProgramOpts) (file : Config)
  : option CompressOptions :=
  match levelOf (level opts) with
  | None => None
  | Some l =>
      Some (mkOptions
              l
              (if String.eqb (format opts) "multiple" then multiple else single)
              (Some (sourceMaps opts
                     || truthy (configGenerateSourceMaps file) || false))
              (configCustomNamePatterns file)
              (configExcludePatterns file)
              None)
  end.

End cli.

(** ** Notions the statements below need *)



(** The texts of the identifiers of a tree, left to right. *)
Fixpoint identifiers (n : ts.Node) : list string :=
  match n with
  | ts.mkNode k _ t _ _ cs =>
      ((if ts.SyntaxKind_eqb k ts.Identifier then [t] else [])
         ++ flat_map identifiers cs)%list
  end.

(** The sum of the lengths of one text of every result. *)
Definition totalLength (content : FileResult -> string) (files : list FileResult)
  : nat :=
  list_sum (map (fun file => String.length (content file)) files).

(** Two records that differ at most in [customNamePatterns]. *)
Definition sameButCustomNamePatterns (a b : CompressOptions) : Prop :=
  level a = level b /\ outputFormat a = outputFormat b
  /\ generateSourceMaps a = generateSourceMaps b
  /\ excludePatterns a = excludePatterns b /\ input a = input b.

(** A name that [path.join] leaves alone: not empty, without slash, and
    neither of the two dot names. *)
Definition plainName (b : string) : Prop :=
  b <> "" /\ b <> "." /\ b <> ".." /\ has_slash b = false.

(** A path whose base name is plain. *)
Definition plainlyNamed (p : string) : Prop := plainName (path.basename p).

(** A path that names a regular file. *)
Definition readable (fsys : fs.FileSystem) (p : string) : Prop :=
  exists data, fs.lookup fsys p = Some (fs.RegularFile data).

(** Induction on trees: a property holds of every node if it holds of a
    node whenever it holds of its children. *)
Fixpoint Node_induction (P : ts.Node -> Prop)
         (step : forall k p t l tr cs, Forall P cs -> P (ts.mkNode k p t l tr cs))
         (n : ts.Node) : P n :=
  match n with
  | ts.mkNode k p t l tr cs =>
      step k p t l tr cs
           ((fix all (ns : list ts.Node) : Forall P ns :=
               match ns with
               | [] => Forall_nil P
               | c :: rest => Forall_cons c (Node_induction step c) (all rest)
               end) cs)
  end.

(** A tree without any variable declaration. *)
Fixpoint noVariableDeclaration (n : ts.Node) : bool :=
  match n with
  | ts.mkNode k _ _ _ _ cs =>
      negb (ts.SyntaxKind_eqb k ts.VariableDeclaration)
      && forallb noVariableDeclaration cs
  end.

(** A tree as the parser builds it: every node has its place in the source
    text, and an identifier has no child. *)
Fixpoint asParsed (n : ts.Node) : bool :=
  match n with
  | ts.mkNode k p _ _ _ cs =>
      p && (negb (ts.SyntaxKind_eqb k ts.Identifier)
            || match cs with [] => true | _ => false end)
      && forallb asParsed cs
  end.

(** How [aggressiveCompression] may change the text of an identifier. *)
Definition keptOrShortened (old new : string) : Prop :=
  new = old \/ new = shortenName old.

(** The bar for a whole percentage [p]: [(3p + 5) / 10] equal signs out
    of 30 places, between brackets. *)
Definition barOf (p : nat) : string :=
  "[" ++ Logger.copies ((3 * p + 5) / 10) "="
      ++ Logger.copies (30 - (3 * p + 5) / 10) " " ++ "]".

(** Whether [createProgressBar] returns [barOf p], 32 characters long. *)
Definition barAgrees (p : nat) : bool :=
  match Logger.createProgressBar (number_of_nat p) 30%float with
  | Logger.Normal bar => String.eqb bar (barOf p) && Nat.eqb (String.length bar) 32
  | Logger.RangeError => false
  end.

(** The values of [--level] that the help text of the command names. *)
Definition documentedLevels : list string := ["none"; "minimal"; "aggressive"].

(** ** Concrete inputs *)
Module Scenario.
Import ts.

Definition leaf (k : SyntaxKind) (t : string) : Node := mkNode k true t [] [] [].

(** [const <name> = <initializer>;] with comments around the statement. *)
Definition constStatement (before after : list CommentRange)
           (name initializer : Node) : Node :=
  mkNode VariableStatement true "" before after
    [mkNode VariableDeclarationList true "const" [] []
       [mkNode VariableDeclaration true "" [] [] [name; initializer]]].

Definition sourceOf (statements : list Node) : Node :=
  mkNode SourceFile true "" [] [] statements.

(** The text of the scenario of the specification, and its tree. *)
Definition helloText : string :=
  "const longVariableName = 'Hello World'; // comment".

Definition lineComment : CommentRange :=
  mkComment SingleLineCommentTrivia "// comment" 0.

Definition helloTree : Node :=
  sourceOf [constStatement [] [lineComment]
              (leaf Identifier "longVariableName")
              (leaf StringLiteral "'Hello World'")].

(** A documented declaration. *)
Definition docText : string := "/** The answer. */ const answer = 42;".

Definition docComment : CommentRange :=
  mkComment MultiLineCommentTrivia "/** The answer. */" 0.

Definition docTree : Node :=
  sourceOf [constStatement [docComment] []
              (leaf Identifier "answer") (leaf NumericLiteral "42")].

(** One variable initialised from another. *)
Definition aliasText : string := "const a = b;".

Definition aliasTree : Node :=
  sourceOf [constStatement [] [] (leaf Identifier "a") (leaf Identifier "b")].

(** A text that is not valid TypeScript: the initializer is missing.
    The parser recovers with an empty identifier and reports it. *)
Definition brokenText : string := "const x = ;".

Definition brokenTree : Node :=
  sourceOf [constStatement [] [] (leaf Identifier "x") (leaf Identifier "")].

Definition brokenDiagnostics : list Diagnostic :=
  [mkDiagnostic 10 "Expression expected."].

(** A tree under the name of its file. *)
Definition named (name : string) (tree : Node) : Node :=
  match tree with
  | mkNode k p _ l tr cs => mkNode k p name l tr cs
  end.

(** The parser on the texts above; any other text is taken as empty. *)
Definition parse (name sourceText : string) : SourceFileNode :=
  if String.eqb sourceText helloText
  then mkSourceFile name (named name helloTree) []
  else if String.eqb sourceText docText
  then mkSourceFile name (named name docTree) []
  else if String.eqb sourceText aliasText
  then mkSourceFile name (named name aliasTree) []
  else if String.eqb sourceText brokenText
  then mkSourceFile name (named name brokenTree) brokenDiagnostics
  else mkSourceFile name (named name (sourceOf [])) [].

Definition cwd : string := "/work".

Definition helloFiles : fs.FileSystem :=
  [("/src", fs.Directory); ("/src/hello.ts", fs.RegularFile helloText)].


Definition aliasFiles : fs.FileSystem :=
  [("/src", fs.Directory); ("/src/alias.ts", fs.RegularFile aliasText)].


(** The two files of the exclusion test, and a file that is not
    TypeScript. *)
Definition testFiles : fs.FileSystem :=
  [("/t", fs.Directory);
   ("/t/include.ts", fs.RegularFile "const a = b;");
   ("/t/exclude.ts", fs.RegularFile "const a = b;");
   ("/t/notes.md", fs.RegularFile "# notes")].

Definition options (l : CompressionLevel) (f : OutputFormat) (maps : bool)
  : CompressOptions :=
  {| level := l; outputFormat := f; generateSourceMaps := Some maps;
     customNamePatterns := None; excludePatterns := None; input := None |}.

Definition excluding (patterns : list string) : CompressOptions :=
  {| level := MINIMAL; outputFormat := multiple; generateSourceMaps := None;
     customNamePatterns := None; excludePatterns := Some patterns;
     input := None |}.

End Scenario.

Import Scenario.

(** More concrete inputs. *)
Module Cases.
Import ts.

(** [f(x);]: a call, no declaration. *)
Definition callTree : Node :=
  Scenario.sourceOf
    [mkNode ExpressionStatement true "" [] []
       [mkNode CallExpression true "" [] []
          [Scenario.leaf Identifier "f"; Scenario.leaf Identifier "x"]]].

(** A directory whose name ends in [.ts], beside a file. *)
Definition oddFiles : fs.FileSystem :=
  [("/o", fs.Directory);
   ("/o/a.ts", fs.RegularFile "const a = b;");
   ("/o/dir.ts", fs.Directory);
   ("/p", fs.Directory);
   ("/p/a.ts", fs.RegularFile "const longVariableName = 'Hello World'; // comment")].

(** A file with a licence pinned at its head, an empty line, then a
    documented declaration with a note behind it. *)
Definition licence : CommentRange :=
  mkComment MultiLineCommentTrivia "/*! (c) Acme */" 2.

Definition licensedTree : Node :=
  mkNode SourceFile true "/src/licensed.ts" [] []
    [Scenario.constStatement
       [licence; mkComment MultiLineCommentTrivia "/** The answer. */" 1]
       [mkComment SingleLineCommentTrivia "// note" 0]
       (Scenario.leaf Identifier "answer")
       (Scenario.leaf NumericLiteral "42")].


End Cases.

(** * Properties *)

(** ** The printer with [removeComments] on writes no comment *)






Lemma transformSourceFile_text sourceFile options generator :
  fst (transformSourceFile sourceFile options generator)
  = printer.render (transformEmitted sourceFile options).
Proof. reflexivity. Qed.

Lemma transformSourceFile_generator sourceFile options generator :
  snd (transformSourceFile sourceFile options generator) = generator.
Proof. reflexivity. Qed.

(** ** Comments *)

Lemma map_fixed {A} (f : A -> A) (xs : list A) :
  Forall (fun x => f x = x) xs -> map f xs = xs.
Proof.
  induction 1 as [|x xs Hx _ IH]; simpl; [reflexivity|].
  now rewrite Hx, IH.
Qed.

Lemma minimalCompression_unfold (node : ts.Node) :
  minimalCompression node
  = if ts.isJSDocCommentContainingNode node
       || ts.SyntaxKind_eqb (ts.kind node) ts.JSDoc
    then node
    else ts.visitEachChild node minimalCompression.
Proof. destruct node; reflexivity. Qed.

Lemma aggressiveCompression_unfold parent (node : ts.Node) :
  aggressiveCompression parent node
  = if ts.isIdentifier node && ts.isVariableDeclaration parent
    then ts.createIdentifier (shortenName (ts.text node))
    else ts.visitEachChild node (aggressiveCompression (Some (ts.kind node))).
Proof. destruct node; reflexivity. Qed.

Lemma visitor_unfold options (node : ts.Node) :
  visitor options node
  = match level options with
    | MINIMAL => minimalCompression node
    | AGGRESSIVE => aggressiveCompression None node
    | NONE => ts.visitEachChild node (visitor options)
    end.
Proof. destruct node; reflexivity. Qed.

Lemma minimalCompression_changes_nothing_aux (node : ts.Node) :
  minimalCompression node = node.
Proof.
  induction node as [k p t l tr cs IH] using Node_induction.
  rewrite minimalCompression_unfold.
  destruct (ts.isJSDocCommentContainingNode _ || _); [reflexivity|].
  simpl. now rewrite (map_fixed _ IH).
Qed.














(** The pinned comment at the head of a file stays in the MINIMAL output,
    the documentation block and the note of the same file do not. *)
Lemma pinned_header_is_kept :
  printer.commentsOf
    (transformEmitted Cases.licensedTree (options MINIMAL single false))
  = [Cases.licence]
  /\ fst (transformSourceFile Cases.licensedTree (options MINIMAL single false)
                              (sourcemap.create "licensed.ts"))
     = "/*! (c) Acme */" ++ printer.nl ++ "const answer = 42;" ++ printer.nl.
Proof. split; reflexivity. Qed.

(** ** The scenario of the specification *)

(** C2, as amended.  For the file [const longVariableName = 'Hello World';
    // comment], MINIMAL gives a text without comment and without [//],
    with [longVariableName] in it; AGGRESSIVE gives the same text with
    [longVariableName] replaced by [_16], the name having 16 characters. *)
Theorem C2_scenario :
  String.length "longVariableName" = 16
  /\ compressFile helloFiles parse "/src/hello.ts" (options MINIMAL single false) 0 1
     = Ok {| originalContent := helloText;
             transformedContent := "const longVariableName = 'Hello World';" ++ printer.nl;
             sourceMap := None;
             originalPath := "/src/hello.ts" |}
  /\ printer.commentsOf (transformEmitted helloTree (options MINIMAL single false)) = []
  /\ contains "//" ("const longVariableName = 'Hello World';" ++ printer.nl) = false
  /\ contains "longVariableName"
              ("const longVariableName = 'Hello World';" ++ printer.nl) = true
  /\ compressFile helloFiles parse "/src/hello.ts" (options AGGRESSIVE single false) 0 1
     = Ok {| originalContent := helloText;
             transformedContent := "const _16 = 'Hello World';" ++ printer.nl;
             sourceMap := None;
             originalPath := "/src/hello.ts" |}
  /\ shortenName "longVariableName" = "_16".
Proof. repeat split; reflexivity. Qed.

(** C2 as stated fails: the AGGRESSIVE output of the scenario does not
    hold [_17]. *)
Lemma C2_generated_name_is_not_17 :
  exists r,
    compressFile helloFiles parse "/src/hello.ts" (options AGGRESSIVE single false) 0 1
    = Ok r
    /\ contains "_17" (transformedContent r) = false
    /\ shortenName "longVariableName" <> "_17".
Proof.
  eexists. split; [reflexivity|]. split; [reflexivity|]. discriminate.
Qed.

(** ** Position mappings *)

(** C3, as amended.  No substitution adds a mapping: whatever the level
    and the file, the map that [compressFile] returns, when maps are asked
    for, names the file and has no entry. *)
Theorem C3_mapping_is_always_empty
        (fsys : fs.FileSystem) (createSourceFile : string -> string -> ts.SourceFileNode)
        (filePath : string) (options : CompressOptions) (i n : nat) (r : FileResult) :
  compressFile fsys createSourceFile filePath options i n = Ok r ->
  sourceMap r
  = if truthy (generateSourceMaps options)
    then Some {| sourcemap.version := 3;
                 sourcemap.rawFile := path.basename filePath;
                 sourcemap.rawMappings := [] |}
    else None.
Proof.
  unfold compressFile. intros H.
  destruct (fs.readFileSync fsys filePath) as [sourceCode|e]; simpl in H;
    [|discriminate].
  injection H as <-. reflexivity.
Qed.

Lemma C3_mapping_is_always_empty_witness :
  sourceMap {| originalContent := helloText;
               transformedContent := "const _16 = 'Hello World';" ++ printer.nl;
               sourceMap := Some {| sourcemap.version := 3;
                                    sourcemap.rawFile := "hello.ts";
                                    sourcemap.rawMappings := [] |};
               originalPath := "/src/hello.ts" |}
  = if truthy (generateSourceMaps (options AGGRESSIVE multiple true))
    then Some {| sourcemap.version := 3;
                 sourcemap.rawFile := path.basename "/src/hello.ts";
                 sourcemap.rawMappings := [] |}
    else None.
Proof.
  apply (@C3_mapping_is_always_empty helloFiles parse "/src/hello.ts"
           (options AGGRESSIVE multiple true) 0 1).
  reflexivity.
Defined.

(** C3 as stated fails: at AGGRESSIVE with maps on, the name of the
    variable declaration of the scenario is replaced, and the map of the
    file has no entry. *)
Lemma C3_substitution_without_mapping :
  identifiers helloTree = ["longVariableName"]
  /\ identifiers (visitor (options AGGRESSIVE multiple true) helloTree) = ["_16"]
  /\ generateSourceMaps (options AGGRESSIVE multiple true) = Some true
  /\ exists r sm,
      compressFile helloFiles parse "/src/hello.ts"
                   (options AGGRESSIVE multiple true) 0 1 = Ok r
      /\ sourceMap r = Some sm
      /\ List.length (sourcemap.rawMappings sm) = 0.
Proof.
  repeat split. eexists. eexists. repeat split.
Qed.

(** ** Texts that do not parse *)


(** ** Renaming *)

Lemma aggressiveCompression_identifier parent p t l tr cs :
  aggressiveCompression parent (ts.mkNode ts.Identifier p t l tr cs)
  = if ts.isVariableDeclaration parent
    then ts.createIdentifier (shortenName t)
    else ts.mkNode ts.Identifier p t l tr
                   (map (aggressiveCompression (Some ts.Identifier)) cs).
Proof. simpl. destruct (ts.isVariableDeclaration parent); reflexivity. Qed.

Lemma aggressiveCompression_other parent k p t l tr cs :
  k <> ts.Identifier ->
  aggressiveCompression parent (ts.mkNode k p t l tr cs)
  = ts.mkNode k p t l tr (map (aggressiveCompression (Some k)) cs).
Proof. intros Hk. destruct k; try reflexivity. now elim Hk. Qed.

Lemma shortenName_by_length (a b : string) :
  String.length a = String.length b -> shortenName a = shortenName b.
Proof. unfold shortenName. now intros ->. Qed.

(** C5: on [const a = b;] the rewriter renames the name [a] and also the
    initializer [b], which is the name of no variable declaration: the
    test of [aggressiveCompression] looks at the parent only. *)
Theorem C5_initializer_is_renamed :
  identifiers aliasTree = ["a"; "b"]
  /\ identifiers (aggressiveCompression None aliasTree) = ["_1"; "_1"]
  /\ compressFile aliasFiles parse "/src/alias.ts" (options AGGRESSIVE single false) 0 1
     = Ok {| originalContent := "const a = b;";
             transformedContent := "const _1 = _1;" ++ printer.nl;
             sourceMap := None;
             originalPath := "/src/alias.ts" |}.
Proof. repeat split; reflexivity. Qed.

(** ** Statistics *)

Lemma fold_left_lengths (content : FileResult -> string) (files : list FileResult)
      (start : nat) :
  fold_left (fun sum file => sum + String.length (content file)) files start
  = start + totalLength content files.
Proof.
  unfold totalLength. revert start.
  induction files as [|f files IH]; intros start; simpl; [lia|].
  rewrite IH. lia.
Qed.

(** C6.  The sizes of a batch are the sums of the lengths of the original
    and of the transformed texts, the ratio is the double
    [1 - compressedSize / originalSize], and for the empty batch that
    double is NaN. *)
Theorem C6_stats (cwd : string) (files : list FileResult) (options : CompressOptions) :
  originalSize (stats (fst (generateOutput cwd files options)))
  = totalLength originalContent files
  /\ compressedSize (stats (fst (generateOutput cwd files options)))
     = totalLength transformedContent files
  /\ compressionRatio (stats (fst (generateOutput cwd files options)))
     = PrimFloat.sub PrimFloat.one
         (PrimFloat.div
            (number_of_nat (totalLength transformedContent files))
            (number_of_nat (totalLength originalContent files)))
  /\ originalSize (stats (fst (generateOutput cwd [] options))) = 0
  /\ PrimFloat.is_nan
       (compressionRatio (stats (fst (generateOutput cwd [] options)))) = true.
Proof.
  unfold generateOutput.
  rewrite !fold_left_lengths.
  destruct (outputFormat options).
  - destruct (truthy (generateSourceMaps options)); simpl; repeat split.
  - destruct (writeEach _ options 0 files) as [[outs maps] writes].
    simpl. repeat split.
Qed.

(** ** Resolving the inputs *)

Lemma resolveLoop_app fsys excluded (before after files : list string) :
  resolveLoop fsys excluded files (before ++ after)%list
  = bind (resolveLoop fsys excluded files before)
         (fun found => resolveLoop fsys excluded found after).
Proof.
  revert files.
  induction before as [|p before IH]; intros files; simpl; [reflexivity|].
  destruct (fs.statSync fsys p) as [stats|e]; simpl; [|reflexivity].
  destruct (fs.isDirectory stats); [apply IH|].
  destruct (fs.isFile stats && String.eqb (path.extname p) ".ts"); apply IH.
Qed.

Lemma resolveLoop_skips fsys excluded (p data : string) (files rest : list string) :
  fs.lookup fsys p = Some (fs.RegularFile data) ->
  path.extname p <> ".ts" ->
  resolveLoop fsys excluded files (p :: rest)
  = resolveLoop fsys excluded files rest.
Proof.
  intros Hfile Hext. simpl. unfold fs.statSync. rewrite Hfile. simpl.
  destruct (String.eqb_spec (path.extname p) ".ts") as [E|_]; [now elim Hext|].
  reflexivity.
Qed.

(** C8: both files named one by one and a pattern that matches
    [exclude.ts]: the resolved list still holds [exclude.ts], and its
    output is written.  Named through their directory, the same pattern
    removes it. *)
Theorem C8_named_file_is_not_excluded :
  glob.minimatch true "**/exclude.ts" "/t/exclude.ts" = true
  /\ resolveInputFiles testFiles ["/t/include.ts"; "/t/exclude.ts"]
                       (Some ["**/exclude.ts"])
     = Ok ["/t/include.ts"; "/t/exclude.ts"]
  /\ (exists result writes,
         compressFiles testFiles cwd parse ["/t/include.ts"; "/t/exclude.ts"]
                       (excluding ["**/exclude.ts"]) = Ok (result, writes)
         /\ outputFiles result = ["/work/dist/include.ts"; "/work/dist/exclude.ts"])
  /\ resolveInputFiles testFiles ["/t"] (Some ["**/exclude.ts"])
     = Ok ["/t/include.ts"].
Proof.
  split; [reflexivity|]. split; [reflexivity|]. split; [|reflexivity].
  eexists. eexists. split; reflexivity.
Qed.

(** C9.  An input path that names an existing file whose extension is not
    [.ts] adds nothing: alone it resolves to the empty list without an
    error, and with or without it a batch resolves to the same files and
    returns the same result, outputs and statistics included. *)
Theorem C9_other_extension_is_skipped
        (fsys : fs.FileSystem) (cwd : string)
        (createSourceFile : string -> string -> ts.SourceFileNode)
        (before after : list string) (p data : string) (options : CompressOptions) :
  fs.lookup fsys p = Some (fs.RegularFile data) ->
  path.extname p <> ".ts" ->
  resolveInputFiles fsys [p] (excludePatterns options) = Ok []
  /\ resolveInputFiles fsys (before ++ p :: after)%list (excludePatterns options)
     = resolveInputFiles fsys (before ++ after)%list (excludePatterns options)
  /\ compressFiles fsys cwd createSourceFile (before ++ p :: after)%list options
     = compressFiles fsys cwd createSourceFile (before ++ after)%list options.
Proof.
  intros Hfile Hext.
  assert (Hsame :
    resolveInputFiles fsys (before ++ p :: after)%list (excludePatterns options)
    = resolveInputFiles fsys (before ++ after)%list (excludePatterns options)).
  { unfold resolveInputFiles. rewrite !resolveLoop_app.
    destruct (resolveLoop fsys (excludePatterns options) [] before); simpl;
      [|reflexivity].
    now apply resolveLoop_skips with (data := data). }
  split; [|split].
  - unfold resolveInputFiles.
    rewrite resolveLoop_skips with (data := data); auto.
  - exact Hsame.
  - unfold compressFiles. now rewrite Hsame.
Qed.

Lemma C9_other_extension_is_skipped_witness :
  resolveInputFiles testFiles ["/t/notes.md"]
                    (excludePatterns (options MINIMAL multiple false)) = Ok []
  /\ resolveInputFiles testFiles (["/t/include.ts"] ++ "/t/notes.md" :: ["/t/exclude.ts"])%list
                       (excludePatterns (options MINIMAL multiple false))
     = resolveInputFiles testFiles (["/t/include.ts"] ++ ["/t/exclude.ts"])%list
                         (excludePatterns (options MINIMAL multiple false))
  /\ compressFiles testFiles cwd parse
                   (["/t/include.ts"] ++ "/t/notes.md" :: ["/t/exclude.ts"])%list
                   (options MINIMAL multiple false)
     = compressFiles testFiles cwd parse (["/t/include.ts"] ++ ["/t/exclude.ts"])%list
                     (options MINIMAL multiple false).
Proof.
  apply (@C9_other_extension_is_skipped testFiles cwd parse
           ["/t/include.ts"] ["/t/exclude.ts"] "/t/notes.md" "# notes"
           (options MINIMAL multiple false)).
  - reflexivity.
  - vm_compute. discriminate.
Defined.

(** ** The options that are read *)

Lemma visitor_reads_level (a b : CompressOptions) (n : ts.Node) :
  level a = level b -> visitor a n = visitor b n.
Proof.
  intros Hlevel.
  induction n as [k p t l tr cs IH] using Node_induction.
  simpl. rewrite <- Hlevel.
  destruct (level a); try reflexivity.
  f_equal. apply map_ext_in. intros c Hc.
  rewrite Forall_forall in IH. now apply IH.
Qed.

Lemma compressFile_reads fsys createSourceFile filePath (a b : CompressOptions) i n :
  sameButCustomNamePatterns a b ->
  compressFile fsys createSourceFile filePath a i n
  = compressFile fsys createSourceFile filePath b i n.
Proof.
  intros (Hlevel & _ & Hmaps & _).
  unfold compressFile, transformSourceFile, createTransformer.
  destruct (fs.readFileSync fsys filePath) as [sourceCode|e]; simpl;
    [|reflexivity].
  now rewrite (@visitor_reads_level a b _ Hlevel), Hlevel, Hmaps.
Qed.

Lemma mapi_result_ext {A B} (f g : A -> nat -> Result B) (xs : list A) (i : nat) :
  (forall x j, f x j = g x j) ->
  mapi_result f i xs = mapi_result g i xs.
Proof.
  intros Hfg. revert i.
  induction xs as [|x xs IH]; intros i; simpl; [reflexivity|].
  now rewrite Hfg, IH.
Qed.

Lemma writeEach_reads outputDir (a b : CompressOptions) index files :
  generateSourceMaps a = generateSourceMaps b ->
  writeEach outputDir a index files = writeEach outputDir b index files.
Proof.
  intros Hmaps. revert index.
  induction files as [|file files IH]; intros index; simpl; [reflexivity|].
  now rewrite IH, Hmaps.
Qed.

Lemma generateOutput_reads cwd files (a b : CompressOptions) :
  sameButCustomNamePatterns a b ->
  generateOutput cwd files a = generateOutput cwd files b.
Proof.
  intros (_ & Hformat & Hmaps & _).
  unfold generateOutput.
  now rewrite Hformat, Hmaps, (@writeEach_reads _ a b _ _ Hmaps).
Qed.

(** C10.  Two option records that differ only in [customNamePatterns]
    give the same batch result: the same per-file results, hence the same
    output paths, written texts and maps, and the same statistics. *)
Theorem C10_customNamePatterns_is_not_read
        (fsys : fs.FileSystem) (cwd : string)
        (createSourceFile : string -> string -> ts.SourceFileNode)
        (inputPaths : list string) (a b : CompressOptions) :
  sameButCustomNamePatterns a b ->
  (forall inputFiles,
      transformFiles fsys createSourceFile inputFiles a
      = transformFiles fsys createSourceFile inputFiles b)
  /\ compressFiles fsys cwd createSourceFile inputPaths a
     = compressFiles fsys cwd createSourceFile inputPaths b.
Proof.
  intros Hsame.
  assert (Hfiles : forall inputFiles,
             transformFiles fsys createSourceFile inputFiles a
             = transformFiles fsys createSourceFile inputFiles b).
  { intros inputFiles. unfold transformFiles.
    apply mapi_result_ext. intros x j. now apply compressFile_reads. }
  split; [exact Hfiles|].
  unfold compressFiles.
  destruct Hsame as (Hlevel & Hformat & Hmaps & Hexcluded & Hinput).
  rewrite Hexcluded.
  destruct (resolveInputFiles fsys inputPaths (excludePatterns b)) as [files|e];
    simpl; [|reflexivity].
  rewrite Hfiles.
  destruct (transformFiles fsys createSourceFile files b) as [results|e];
    simpl; [|reflexivity].
  f_equal. apply generateOutput_reads. repeat split; assumption.
Qed.

Lemma C10_customNamePatterns_is_not_read_witness :
  (forall inputFiles,
      transformFiles helloFiles parse inputFiles
        {| level := AGGRESSIVE; outputFormat := multiple;
           generateSourceMaps := Some true; customNamePatterns := Some ["^tmp"];
           excludePatterns := None; input := None |}
      = transformFiles helloFiles parse inputFiles (options AGGRESSIVE multiple true))
  /\ compressFiles helloFiles cwd parse ["/src"]
       {| level := AGGRESSIVE; outputFormat := multiple;
          generateSourceMaps := Some true; customNamePatterns := Some ["^tmp"];
          excludePatterns := None; input := None |}
     = compressFiles helloFiles cwd parse ["/src"] (options AGGRESSIVE multiple true).
Proof.
  apply (@C10_customNamePatterns_is_not_read helloFiles cwd parse ["/src"]).
  repeat split; reflexivity.
Defined.

(** ** Paths *)

Lemma split_slash_not_nil (s : string) : split_slash s <> [].
Proof.
  destruct s as [|c r]; simpl; [discriminate|].
  destruct (Ascii.eqb c "/"); [discriminate|].
  destruct (split_slash r); discriminate.
Qed.

Lemma split_slash_app (a b : string) :
  split_slash (a ++ String "/" b) = (split_slash a ++ split_slash b)%list.
Proof.
  induction a as [|c r IH]; simpl; [reflexivity|].
  rewrite IH.
  destruct (Ascii.eqb c "/"); [reflexivity|].
  destruct (split_slash r) as [|h t] eqn:E; [|reflexivity].
  now elim (split_slash_not_nil r).
Qed.


Lemma split_slash_pieces (s : string) :
  Forall (fun x => has_slash x = false) (split_slash s).
Proof.
  induction s as [|c r IH]; simpl; [now constructor|].
  destruct (Ascii.eqb c "/") eqn:Hc; [now constructor|].
  destruct (split_slash r) as [|h t]; [now constructor; [simpl; rewrite Hc|]|].
  inversion IH as [|? ? Hh Ht]; subst.
  constructor; [simpl; now rewrite Hc, Hh | exact Ht].
Qed.

Lemma last_app_not_nil {A} (l1 l2 : list A) (d : A) :
  l2 <> [] -> last (l1 ++ l2)%list d = last l2 d.
Proof.
  intros Hne. induction l1 as [|x l1 IH]; [reflexivity|].
  simpl. destruct (l1 ++ l2)%list eqn:E; [|exact IH].
  apply app_eq_nil in E as [_ E]. now elim Hne.
Qed.

Lemma last_in_or_default {A} (P : A -> Prop) (l : list A) (d : A) :
  P d -> Forall P l -> P (last l d).
Proof.
  intros Hd. induction 1 as [|x l Hx Hl IH]; simpl; [exact Hd|].
  destruct l; [exact Hx | exact IH].
Qed.

Lemma basename_no_slash (p : string) : has_slash (path.basename p) = false.
Proof.
  unfold path.basename.
  apply last_in_or_default with (P := fun x => has_slash x = false);
    [reflexivity|].
  apply Forall_forall. intros x Hx. apply filter_In in Hx as [Hx _].
  pose proof (split_slash_pieces p) as Hall.
  rewrite Forall_forall in Hall. now apply Hall.
Qed.

Lemma nonempty_true (b : string) : b <> "" -> nonempty b = true.
Proof.
  intros Hb. unfold nonempty.
  destruct (String.eqb_spec b ""); [now elim Hb | reflexivity].
Qed.








Lemma extname_ts_plain (p : string) :
  path.extname p = ".ts" -> plainlyNamed p.
Proof.
  intros Hext. unfold plainlyNamed, plainName.
  repeat split; try apply basename_no_slash;
    intros E; unfold path.extname in Hext; rewrite E in Hext; discriminate.
Qed.

Lemma last_segments (p : string) :
  last (glob.segments p) "" = path.basename p.
Proof.
  unfold glob.segments, path.basename.
  destruct (filter nonempty (split_slash p)) as [|x l] eqn:E.
  - destruct (starts_with_slash p); reflexivity.
  - apply last_app_not_nil. discriminate.
Qed.

Lemma wild_ts_not_empty (segs : list string) :
  glob.wild "*.ts" (last segs "") = true -> segs <> [].
Proof. intros H ->. discriminate. Qed.

Lemma pmatch_star dot (pr segs : list string) :
  glob.pmatch dot ("**" :: pr) segs
  = glob.pmatch dot pr segs
    || match segs with
       | [] => false
       | s :: sr => (dot || negb (glob.hidden s)) && glob.pmatch dot ("**" :: pr) sr
       end.
Proof. destruct segs; reflexivity. Qed.

Lemma pmatch_piece dot (pat : string) (pr segs : list string) :
  String.eqb pat "**" = false ->
  glob.pmatch dot (pat :: pr) segs
  = match segs with
    | s :: sr => glob.segMatch dot pat s && glob.pmatch dot pr sr
    | [] => false
    end.
Proof. intros H. simpl. now rewrite H. Qed.

Lemma last_cons_of_match (s : string) (sr : list string) :
  glob.wild "*.ts" (last sr "") = true ->
  glob.wild "*.ts" (last (s :: sr) "") = true.
Proof.
  intros Hsr. pose proof (@wild_ts_not_empty _ Hsr).
  destruct sr; [congruence | exact Hsr].
Qed.

Lemma pmatch_ts_last dot (pre segs : list string) :
  glob.pmatch dot (pre ++ ["**"; "*.ts"])%list segs = true ->
  glob.wild "*.ts" (last segs "") = true.
Proof.
  revert segs. induction pre as [|pat pre IH]; intros segs.
  - simpl app.
    induction segs as [|s sr IHs]; intros H; rewrite pmatch_star in H.
    + rewrite pmatch_piece in H by reflexivity. discriminate.
    + apply orb_prop in H as [H|H].
      * rewrite pmatch_piece in H by reflexivity.
        apply andb_prop in H as [Hseg Hrest].
        destruct sr; [|discriminate].
        apply andb_prop in Hseg as [_ Hwild]. exact Hwild.
      * apply andb_prop in H as [_ H].
        apply last_cons_of_match. now apply IHs.
  - simpl app.
    destruct (String.eqb pat "**") eqn:Hpat.
    + apply String.eqb_eq in Hpat. subst pat.
      induction segs as [|s sr IHs]; intros H; rewrite pmatch_star in H.
      * apply orb_prop in H as [H|H]; [now apply IH | discriminate].
      * apply orb_prop in H as [H|H]; [now apply IH|].
        apply andb_prop in H as [_ H].
        apply last_cons_of_match. now apply IHs.
    + intros H. rewrite pmatch_piece in H by exact Hpat.
      destruct segs as [|s sr]; [discriminate|].
      apply andb_prop in H as [_ H].
      apply last_cons_of_match. now apply IH.
Qed.

Lemma segments_of_pattern (dir : string) :
  exists pre, glob.segments (dir ++ "/**/*.ts") = (pre ++ ["**"; "*.ts"])%list.
Proof.
  unfold glob.segments.
  change (dir ++ "/**/*.ts") with (dir ++ String "/" "**/*.ts").
  rewrite split_slash_app, filter_app. simpl.
  eexists. now rewrite app_assoc.
Qed.

Lemma glob_ts_plain fsys (dir p : string) (ignore : list string) :
  In p (glob.sync fsys (dir ++ "/**/*.ts") ignore) -> plainlyNamed p.
Proof.
  unfold glob.sync. intros Hin.
  apply filter_In in Hin as [_ Hmatch].
  apply andb_prop in Hmatch as [Hmatch _].
  unfold glob.minimatch in Hmatch.
  destruct (segments_of_pattern dir) as [pre Hpre].
  rewrite Hpre in Hmatch.
  apply pmatch_ts_last in Hmatch. rewrite last_segments in Hmatch.
  unfold plainlyNamed, plainName.
  repeat split; try apply basename_no_slash;
    intros E; rewrite E in Hmatch; discriminate.
Qed.

Lemma resolveLoop_plain fsys excluded (inputPaths files found : list string) :
  Forall plainlyNamed files ->
  resolveLoop fsys excluded files inputPaths = Ok found ->
  Forall plainlyNamed found.
Proof.
  revert files.
  induction inputPaths as [|p rest IH]; intros files Hfiles; simpl.
  - intros H. now injection H as <-.
  - destruct (fs.statSync fsys p) as [stats|e]; simpl; [|discriminate].
    destruct (fs.isDirectory stats).
    + apply IH. apply Forall_app. split; [exact Hfiles|].
      apply Forall_forall. intros q Hq. eapply glob_ts_plain. exact Hq.
    + destruct (fs.isFile stats); simpl; [|now apply IH].
      destruct (String.eqb_spec (path.extname p) ".ts") as [Hext|_];
        [|now apply IH].
      apply IH. apply Forall_app. split; [exact Hfiles|].
      constructor; [now apply extname_ts_plain | constructor].
Qed.

(** ** The batch *)

Lemma compressFile_keeps_path fsys createSourceFile filePath options i n r :
  compressFile fsys createSourceFile filePath options i n = Ok r ->
  originalPath r = filePath.
Proof.
  unfold compressFile.
  destruct (fs.readFileSync fsys filePath); simpl; [|discriminate].
  intros H. now injection H as <-.
Qed.

Lemma compressFile_returns fsys createSourceFile filePath options i n :
  readable fsys filePath ->
  exists r, compressFile fsys createSourceFile filePath options i n = Ok r.
Proof.
  intros [data Hfile]. unfold compressFile, fs.readFileSync.
  rewrite Hfile. simpl. eexists. reflexivity.
Qed.

Lemma mapi_result_inverse {A B} (f : A -> nat -> Result B) (g : B -> A)
      (xs : list A) (ys : list B) (i : nat) :
  (forall x j y, f x j = Ok y -> g y = x) ->
  mapi_result f i xs = Ok ys -> map g ys = xs.
Proof.
  intros Hfg. revert i ys.
  induction xs as [|x xs IH]; intros i ys; simpl.
  - intros H. now injection H as <-.
  - destruct (f x i) as [y|e] eqn:Hy; simpl; [|discriminate].
    destruct (mapi_result f (S i) xs) as [rest|e] eqn:Hrest; simpl;
      [|discriminate].
    intros H. injection H as <-. simpl.
    now rewrite (Hfg _ _ _ Hy), (IH _ _ Hrest).
Qed.

Lemma mapi_result_returns {A B} (f : A -> nat -> Result B) (xs : list A) (i : nat) :
  Forall (fun x => forall j, exists y, f x j = Ok y) xs ->
  exists ys, mapi_result f i xs = Ok ys.
Proof.
  intros Hall. revert i.
  induction Hall as [|x xs Hx _ IH]; intros i; simpl.
  - now eexists.
  - destruct (Hx i) as [y ->]. destruct (IH (S i)) as [ys ->].
    simpl. now eexists.
Qed.


Lemma generateOutput_multiple cwd (files : list FileResult) options :
  outputFormat options = multiple ->
  outputFiles (fst (generateOutput cwd files options))
  = fst (fst (writeEach (path.join2 cwd "dist") options 0 files)).
Proof.
  intros Hformat. unfold generateOutput. rewrite Hformat.
  now destruct (writeEach _ options 0 files) as [[outs maps] writes].
Qed.






(** * Further properties of the compressor *)

(** ** What the rewriters leave alone *)

(** [minimalCompression] returns the tree it is given: both of its
    branches hand the node back, the second after doing the same to its
    children.  All that MINIMAL changes in the output comes from the
    printer. *)
Theorem minimalCompression_changes_nothing (node : ts.Node) :
  minimalCompression node = node
  /\ forall options generator,
      level options = MINIMAL ->
      transformSourceFile node options generator
      = (printer.printFile true node, generator).
Proof.
  split; [apply minimalCompression_changes_nothing_aux|].
  intros options generator Hlevel.
  unfold transformSourceFile, createTransformer.
  rewrite visitor_unfold, Hlevel, minimalCompression_changes_nothing_aux.
  reflexivity.
Qed.

Lemma visitor_changes_nothing (options : CompressOptions) (node : ts.Node) :
  level options <> AGGRESSIVE -> visitor options node = node.
Proof.
  intros Hlevel.
  induction node as [k p t l tr cs IH] using Node_induction.
  rewrite visitor_unfold.
  destruct (level options) eqn:E.
  - simpl. now rewrite (map_fixed _ IH).
  - apply minimalCompression_changes_nothing_aux.
  - now elim Hlevel.
Qed.

(** At NONE the visitor of [createTransformer] rebuilds every node from
    its own children and so returns the source file unchanged; the text of
    [transformSourceFile] is the print of the parsed tree with its
    comments. *)
Theorem none_changes_nothing
        (options : CompressOptions) (sourceFile : ts.Node)
        (generator : sourcemap.SourceMapGenerator) :
  level options = NONE ->
  visitor options sourceFile = sourceFile
  /\ transformSourceFile sourceFile options generator
     = (printer.printFile false sourceFile, generator).
Proof.
  intros Hlevel.
  assert (Hnot : level options <> AGGRESSIVE) by (rewrite Hlevel; discriminate).
  split; [now apply visitor_changes_nothing|].
  unfold transformSourceFile, createTransformer.
  rewrite (@visitor_changes_nothing options _ Hnot).
  now rewrite Hlevel.
Qed.

Lemma none_changes_nothing_witness :
  visitor (options NONE single false) docTree = docTree
  /\ transformSourceFile docTree (options NONE single false)
                         (sourcemap.create "doc.ts")
     = (printer.printFile false docTree, sourcemap.create "doc.ts").
Proof.
  apply (@none_changes_nothing (options NONE single false) docTree
           (sourcemap.create "doc.ts")).
  reflexivity.
Defined.

(** [aggressiveCompression] returns a tree without variable declaration
    as it is, when it does not come to it from a variable declaration. *)
Theorem aggressiveCompression_needs_declaration
        (parent : option ts.SyntaxKind) (node : ts.Node) :
  ts.isVariableDeclaration parent = false ->
  noVariableDeclaration node = true ->
  aggressiveCompression parent node = node.
Proof.
  revert parent.
  induction node as [k p t l tr cs IH] using Node_induction.
  intros parent Hparent Hnone.
  rewrite aggressiveCompression_unfold, Hparent, andb_false_r.
  simpl in Hnone |- *. apply andb_prop in Hnone as [Hk Hcs].
  f_equal. apply map_fixed.
  rewrite forallb_forall in Hcs. rewrite Forall_forall in IH |- *.
  intros c Hc. apply IH; [exact Hc| |now apply Hcs].
  simpl. now apply negb_true_iff in Hk.
Qed.

Lemma aggressiveCompression_needs_declaration_witness :
  aggressiveCompression None Cases.callTree = Cases.callTree.
Proof.
  apply (@aggressiveCompression_needs_declaration None Cases.callTree);
    reflexivity.
Defined.

Lemma Forall2_flat_map {A B C} (R : B -> C -> Prop)
      (f : A -> list B) (g : A -> list C) (xs : list A) :
  Forall (fun x => Forall2 R (f x) (g x)) xs ->
  Forall2 R (flat_map f xs) (flat_map g xs).
Proof.
  induction 1 as [|x xs Hx _ IH]; simpl; [constructor|].
  now apply Forall2_app.
Qed.

Lemma flat_map_of_map {A B C} (f : B -> list C) (g : A -> B) (xs : list A) :
  flat_map f (map g xs) = flat_map (fun x => f (g x)) xs.
Proof.
  induction xs as [|x xs IH]; simpl; [reflexivity|]. now rewrite IH.
Qed.

(** On a tree as the parser builds it, [aggressiveCompression] keeps the
    identifiers in number and order, and each one either keeps its text or
    gets [shortenName] of it. *)
Theorem aggressiveCompression_identifiers
        (parent : option ts.SyntaxKind) (node : ts.Node) :
  asParsed node = true ->
  Forall2 keptOrShortened (identifiers node)
          (identifiers (aggressiveCompression parent node)).
Proof.
  revert parent.
  induction node as [k p t l tr cs IH] using Node_induction.
  intros parent Hparsed.
  simpl in Hparsed.
  apply andb_prop in Hparsed as [Hhere Hcs].
  apply andb_prop in Hhere as [_ Hleaf].
  rewrite aggressiveCompression_unfold.
  destruct (ts.isIdentifier _ && ts.isVariableDeclaration parent) eqn:Hrename.
  - apply andb_prop in Hrename as [Hid _].
    unfold ts.isIdentifier in Hid. simpl in Hid.
    rewrite Hid in Hleaf. simpl in Hleaf.
    destruct cs; [|discriminate].
    simpl. rewrite Hid. simpl.
    constructor; [right; reflexivity | constructor].
  - simpl. apply Forall2_app.
    + destruct (ts.SyntaxKind_eqb k ts.Identifier);
        [constructor; [left; reflexivity | constructor] | constructor].
    + rewrite flat_map_of_map.
      apply Forall2_flat_map.
      rewrite forallb_forall in Hcs. rewrite Forall_forall in IH |- *.
      intros c Hc. apply IH; [exact Hc | now apply Hcs].
Qed.

Lemma aggressiveCompression_identifiers_witness :
  Forall2 keptOrShortened (identifiers aliasTree)
          (identifiers (aggressiveCompression None aliasTree)).
Proof.
  apply (@aggressiveCompression_identifiers None aliasTree).
  reflexivity.
Defined.

Lemma to_uint_not_nil (n : nat) : Nat.to_uint n <> Decimal.Nil.
Proof.
  intros E. pose proof (DecimalNat.Unsigned.of_to n) as H.
  rewrite E in H. simpl in H. subst n. discriminate.
Qed.

Lemma decimal_injective (n m : nat) : decimal n = decimal m -> n = m.
Proof.
  unfold decimal. intros E.
  apply DecimalNat.Unsigned.to_uint_inj.
  pose proof (NilZero.usu (Nat.to_uint n) (to_uint_not_nil n)) as Hn.
  pose proof (NilZero.usu (Nat.to_uint m) (to_uint_not_nil m)) as Hm.
  rewrite E in Hn. rewrite Hn in Hm. now injection Hm.
Qed.

(** [shortenName] gives two names the same short name exactly when they
    have the same length. *)
Theorem shortenName_collides_on_length (a b : string) :
  shortenName a = shortenName b <-> String.length a = String.length b.
Proof.
  unfold shortenName. split.
  - intros E. injection E as E. now apply decimal_injective.
  - now intros ->.
Qed.

(** ** More on resolving the inputs *)

Lemma resolveLoop_from fsys excluded (files inputPaths : list string) :
  resolveLoop fsys excluded files inputPaths
  = bind (resolveLoop fsys excluded [] inputPaths)
         (fun found => Ok (files ++ found)%list).
Proof.
  revert files.
  induction inputPaths as [|p rest IH]; intros files; simpl.
  - now rewrite app_nil_r.
  - destruct (fs.statSync fsys p) as [stats|e]; simpl; [|reflexivity].
    destruct (fs.isDirectory stats).
    + rewrite (IH (files ++ _)%list), (IH (glob.sync _ _ _)).
      destruct (resolveLoop fsys excluded [] rest); simpl; [|reflexivity].
      now rewrite app_assoc.
    + destruct (fs.isFile stats && String.eqb (path.extname p) ".ts").
      * rewrite (IH (files ++ _)%list), (IH [p]).
        destruct (resolveLoop fsys excluded [] rest); simpl; [|reflexivity].
        now rewrite <- app_assoc.
      * apply IH.
Qed.

Lemma resolveInputFiles_appends_aux
      (fsys : fs.FileSystem) (first second : list string)
      (excluded : option (list string)) :
  resolveInputFiles fsys (first ++ second)%list excluded
  = (found1 <- resolveInputFiles fsys first excluded ;;
     found2 <- resolveInputFiles fsys second excluded ;;
     Ok (found1 ++ found2)%list).
Proof.
  unfold resolveInputFiles. rewrite resolveLoop_app.
  destruct (resolveLoop fsys excluded [] first) as [found1|e]; simpl;
    [|reflexivity].
  apply resolveLoop_from.
Qed.

(** Resolving a list of inputs is resolving its parts one after the other
    and appending what they give: nothing is reordered and nothing is
    removed, so an input named twice has its files listed twice; the
    first path that fails ends the resolution. *)
Theorem resolveInputFiles_appends
        (fsys : fs.FileSystem) (first second : list string)
        (excluded : option (list string)) :
  resolveInputFiles fsys (first ++ second)%list excluded
  = (found1 <- resolveInputFiles fsys first excluded ;;
     found2 <- resolveInputFiles fsys second excluded ;;
     Ok (found1 ++ found2)%list).
Proof. apply resolveInputFiles_appends_aux. Qed.

(** An input path that does not exist ends the batch with [ENOENT] for
    that path, whatever comes after it, when the paths before it
    resolve. *)
Theorem missing_input_aborts
        (fsys : fs.FileSystem) (cwd : string)
        (createSourceFile : string -> string -> ts.SourceFileNode)
        (before after found : list string) (p : string)
        (options : CompressOptions) :
  resolveInputFiles fsys before (excludePatterns options) = Ok found ->
  fs.lookup fsys p = None ->
  resolveInputFiles fsys (before ++ p :: after)%list (excludePatterns options)
  = Throw (ENOENT p)
  /\ compressFiles fsys cwd createSourceFile (before ++ p :: after)%list options
     = Throw (ENOENT p).
Proof.
  intros Hbefore Hmissing.
  assert (H : resolveInputFiles fsys (before ++ p :: after)%list
                                (excludePatterns options) = Throw (ENOENT p)).
  { rewrite resolveInputFiles_appends_aux, Hbefore. simpl.
    unfold resolveInputFiles. simpl. unfold fs.statSync.
    now rewrite Hmissing. }
  split; [exact H|]. unfold compressFiles. now rewrite H.
Qed.

Lemma missing_input_aborts_witness :
  resolveInputFiles testFiles (["/t"] ++ "/gone" :: ["/t/include.ts"])%list
                    (excludePatterns (options MINIMAL single false))
  = Throw (ENOENT "/gone")
  /\ compressFiles testFiles cwd parse
                   (["/t"] ++ "/gone" :: ["/t/include.ts"])%list
                   (options MINIMAL single false)
     = Throw (ENOENT "/gone").
Proof.
  apply (@missing_input_aborts testFiles cwd parse ["/t"] ["/t/include.ts"]
           ["/t/include.ts"; "/t/exclude.ts"] "/gone"
           (options MINIMAL single false));
    reflexivity.
Defined.

Lemma wild_char (c d : ascii) (pr sr : string) :
  Ascii.eqb c "*" = false ->
  glob.wild (String c pr) (String d sr) = Ascii.eqb c d && glob.wild pr sr.
Proof. intros H. cbn [glob.wild]. now rewrite H. Qed.

Lemma wild_char_end (c : ascii) (pr : string) :
  Ascii.eqb c "*" = false -> glob.wild (String c pr) "" = false.
Proof. intros H. cbn [glob.wild]. now rewrite H. Qed.

Lemma wild_literal_ts (s : string) : glob.wild ".ts" s = true -> s = ".ts".
Proof.
  destruct s as [|a [|b [|c [|d s]]]];
    rewrite ?wild_char, ?wild_char_end by reflexivity;
    try discriminate; intros H.
  - apply andb_prop in H as [_ H]. discriminate.
  - apply andb_prop in H as [_ H]. apply andb_prop in H as [_ H].
    discriminate.
  - apply andb_prop in H as [Ha H].
    apply andb_prop in H as [Hb H]. apply andb_prop in H as [Hc _].
    apply Ascii.eqb_eq in Ha, Hb, Hc. now subst.
  - apply andb_prop in H as [_ H].
    apply andb_prop in H as [_ H]. apply andb_prop in H as [_ H].
    discriminate.
Qed.

Lemma wild_star_ts (s : string) :
  glob.wild "*.ts" s = true -> exists front, s = front ++ ".ts".
Proof.
  induction s as [|c s IH]; intros H.
  - discriminate.
  - change (glob.wild ".ts" (String c s) || glob.wild "*.ts" s = true) in H.
    apply orb_prop in H as [H|H].
    + exists "". now apply wild_literal_ts.
    + destruct (IH H) as [front ->]. now exists (String c front).
Qed.

Lemma from_last_dot_ts (front : string) :
  path.from_last_dot (front ++ ".ts") = Some ".ts".
Proof.
  induction front as [|c front IH]; [reflexivity|].
  simpl. now rewrite IH.
Qed.

Lemma hidden_dot (rest : string) : glob.hidden (String "." rest) = true.
Proof.
  unfold glob.hidden. simpl.
  destruct (ascii_dec "." ".") as [_|H]; [now destruct rest | now elim H].
Qed.

Lemma extname_of_match (p : string) :
  glob.segMatch false "*.ts" (path.basename p) = true ->
  path.extname p = ".ts".
Proof.
  unfold glob.segMatch. intros H. apply andb_prop in H as [Hshown Hwild].
  apply wild_star_ts in Hwild as [front Hfront].
  unfold path.extname. rewrite Hfront in Hshown |- *.
  destruct front as [|c front]; [vm_compute in Hshown; discriminate|].
  cbn [append String.eqb]. rewrite from_last_dot_ts.
  destruct (Ascii.eqb_spec c ".") as [->|Hc]; [|reflexivity].
  cbn [append] in Hshown. rewrite hidden_dot in Hshown. discriminate.
Qed.

Lemma last_cons_of_segMatch dot (s : string) (sr : list string) :
  glob.segMatch dot "*.ts" (last sr "") = true ->
  glob.segMatch dot "*.ts" (last (s :: sr) "") = true.
Proof.
  intros Hsr. destruct sr; [|exact Hsr].
  unfold glob.segMatch in Hsr. apply andb_prop in Hsr as [_ Hsr]. discriminate.
Qed.

Lemma pmatch_ts_segment dot (pre segs : list string) :
  glob.pmatch dot (pre ++ ["**"; "*.ts"])%list segs = true ->
  glob.segMatch dot "*.ts" (last segs "") = true.
Proof.
  revert segs. induction pre as [|pat pre IH]; intros segs.
  - simpl app.
    induction segs as [|s sr IHs]; intros H; rewrite pmatch_star in H.
    + rewrite pmatch_piece in H by reflexivity. discriminate.
    + apply orb_prop in H as [H|H].
      * rewrite pmatch_piece in H by reflexivity.
        apply andb_prop in H as [Hseg Hrest].
        destruct sr; [exact Hseg | discriminate].
      * apply andb_prop in H as [_ H].
        apply last_cons_of_segMatch. now apply IHs.
  - simpl app.
    destruct (String.eqb pat "**") eqn:Hpat.
    + apply String.eqb_eq in Hpat. subst pat.
      induction segs as [|s sr IHs]; intros H; rewrite pmatch_star in H.
      * apply orb_prop in H as [H|H]; [now apply IH | discriminate].
      * apply orb_prop in H as [H|H]; [now apply IH|].
        apply andb_prop in H as [_ H].
        apply last_cons_of_segMatch. now apply IHs.
    + intros H. rewrite pmatch_piece in H by exact Hpat.
      destruct segs as [|s sr]; [discriminate|].
      apply andb_prop in H as [_ H].
      apply last_cons_of_segMatch. now apply IH.
Qed.

Lemma glob_gives_ts fsys (dir p : string) (ignore : list string) :
  In p (glob.sync fsys (dir ++ "/**/*.ts") ignore) -> path.extname p = ".ts".
Proof.
  unfold glob.sync. intros Hin.
  apply filter_In in Hin as [_ Hmatch].
  apply andb_prop in Hmatch as [Hmatch _].
  unfold glob.minimatch in Hmatch.
  destruct (segments_of_pattern dir) as [pre Hpre].
  rewrite Hpre in Hmatch.
  apply pmatch_ts_segment in Hmatch. rewrite last_segments in Hmatch.
  now apply extname_of_match.
Qed.

Lemma lookup_of_listed (fsys : fs.FileSystem) (p : string) :
  In p (map fst fsys) -> fs.lookup fsys p <> None.
Proof.
  induction fsys as [|[q e] fsys IH]; simpl; [intros []|].
  intros [->|Hin].
  - now rewrite String.eqb_refl.
  - destruct (String.eqb q p); [discriminate | now apply IH].
Qed.

Lemma resolveLoop_gives_ts fsys excluded (inputPaths files found : list string) :
  Forall (fun p => path.extname p = ".ts" /\ fs.lookup fsys p <> None) files ->
  resolveLoop fsys excluded files inputPaths = Ok found ->
  Forall (fun p => path.extname p = ".ts" /\ fs.lookup fsys p <> None) found.
Proof.
  revert files.
  induction inputPaths as [|p rest IH]; intros files Hfiles; simpl.
  - intros H. now injection H as <-.
  - unfold fs.statSync.
    destruct (fs.lookup fsys p) as [stats|] eqn:Hstat; simpl; [|discriminate].
    destruct (fs.isDirectory stats).
    + apply IH. apply Forall_app. split; [exact Hfiles|].
      apply Forall_forall. intros q Hq. split.
      * eapply glob_gives_ts. exact Hq.
      * apply lookup_of_listed. unfold glob.sync in Hq.
        now apply filter_In in Hq as [Hq _].
    + destruct (fs.isFile stats); simpl; [|now apply IH].
      destruct (String.eqb_spec (path.extname p) ".ts") as [Hext|_];
        [|now apply IH].
      apply IH. apply Forall_app. split; [exact Hfiles|].
      constructor; [|constructor].
      split; [exact Hext | now rewrite Hstat].
Qed.

(** Every path that [resolveInputFiles] returns has the extension [.ts],
    whether it was named or found in a directory, and exists. *)
Theorem resolved_files_are_ts
        (fsys : fs.FileSystem) (inputPaths found : list string)
        (excluded : option (list string)) :
  resolveInputFiles fsys inputPaths excluded = Ok found ->
  Forall (fun p => path.extname p = ".ts" /\ fs.lookup fsys p <> None) found.
Proof.
  unfold resolveInputFiles. apply resolveLoop_gives_ts. constructor.
Qed.

Lemma resolved_files_are_ts_witness :
  Forall (fun p => path.extname p = ".ts" /\ fs.lookup testFiles p <> None)
         ["/t/include.ts"; "/t/exclude.ts"].
Proof.
  apply (@resolved_files_are_ts testFiles ["/t"; "/t/notes.md"]
           ["/t/include.ts"; "/t/exclude.ts"] None).
  reflexivity.
Defined.

(** ** More on the batch *)

Lemma mapi_result_all {A B} (f : A -> nat -> Result B) (P : B -> Prop)
      (xs : list A) (ys : list B) (i : nat) :
  (forall x j y, f x j = Ok y -> P y) ->
  mapi_result f i xs = Ok ys -> Forall P ys.
Proof.
  intros Hf. revert i ys.
  induction xs as [|x xs IH]; intros i ys; simpl.
  - intros H. injection H as <-. constructor.
  - destruct (f x i) as [y|e] eqn:Hy; simpl; [|discriminate].
    destruct (mapi_result f (S i) xs) as [rest|e] eqn:Hrest; simpl;
      [|discriminate].
    intros H. injection H as <-.
    constructor; [eapply Hf; exact Hy | eapply IH; exact Hrest].
Qed.

Lemma mapi_result_shift {A B} (f : A -> nat -> Result B) (xs : list A) (i j : nat) :
  (forall x a b, f x a = f x b) ->
  mapi_result f i xs = mapi_result f j xs.
Proof.
  intros Hf. revert i j.
  induction xs as [|x xs IH]; intros i j; simpl; [reflexivity|].
  now rewrite (Hf x i j), (IH (S i) (S j)).
Qed.

Lemma mapi_result_app {A B} (f : A -> nat -> Result B) (xs ys : list A) (i : nat) :
  mapi_result f i (xs ++ ys)%list
  = (front <- mapi_result f i xs ;;
     back <- mapi_result f (i + List.length xs) ys ;;
     Ok (front ++ back)%list).
Proof.
  revert i.
  induction xs as [|x xs IH]; intros i; simpl.
  - rewrite Nat.add_0_r. now destruct (mapi_result f i ys).
  - destruct (f x i) as [y|e]; simpl; [|reflexivity].
    rewrite IH, Nat.add_succ_r.
    destruct (mapi_result f (S i) xs) as [front|e]; simpl; [|reflexivity].
    now destruct (mapi_result f (S (i + List.length xs)) ys).
Qed.

Lemma transformFiles_as_map fsys createSourceFile (files : list string) options
      (i n : nat) :
  transformFiles fsys createSourceFile files options
  = mapi_result (fun file index =>
                   compressFile fsys createSourceFile file options index n)
                i files.
Proof.
  unfold transformFiles.
  rewrite (mapi_result_shift _ files 0 i) by reflexivity.
  apply mapi_result_ext. reflexivity.
Qed.

(** A resolved path that cannot be read ends the batch with the error of
    the read: the files before it are compressed and dropped, nothing is
    returned and nothing is written. *)
Theorem unreadable_file_aborts
        (fsys : fs.FileSystem) (cwd : string)
        (createSourceFile : string -> string -> ts.SourceFileNode)
        (inputPaths before after : list string) (p : string) (e : Error)
        (options : CompressOptions) :
  resolveInputFiles fsys inputPaths (excludePatterns options)
  = Ok (before ++ p :: after)%list ->
  Forall (readable fsys) before ->
  fs.readFileSync fsys p = Throw e ->
  compressFiles fsys cwd createSourceFile inputPaths options = Throw e.
Proof.
  intros Hresolve Hbefore Hread.
  unfold compressFiles. rewrite Hresolve. simpl.
  rewrite (transformFiles_as_map fsys createSourceFile _ options 0 0).
  rewrite mapi_result_app.
  destruct (@mapi_result_returns _ _
              (fun file index =>
                 compressFile fsys createSourceFile file options index 0)
              before 0) as [front ->].
  { eapply Forall_impl; [|exact Hbefore].
    intros q Hq j. now apply compressFile_returns. }
  simpl. unfold compressFile at 1. now rewrite Hread.
Qed.

Lemma unreadable_file_aborts_witness :
  compressFiles Cases.oddFiles cwd parse ["/o"] (options MINIMAL multiple false)
  = Throw (EISDIR "/o/dir.ts").
Proof.
  apply (@unreadable_file_aborts Cases.oddFiles cwd parse ["/o"]
           ["/o/a.ts"] [] "/o/dir.ts" (EISDIR "/o/dir.ts")
           (options MINIMAL multiple false)).
  - reflexivity.
  - repeat constructor. eexists. reflexivity.
  - reflexivity.
Defined.

(** ** More on the output *)

Lemma compressFile_has_map fsys createSourceFile filePath options i n r :
  truthy (generateSourceMaps options) = true ->
  compressFile fsys createSourceFile filePath options i n = Ok r ->
  sourceMap r <> None.
Proof.
  intros Hmaps. unfold compressFile.
  destruct (fs.readFileSync fsys filePath); simpl; [|discriminate].
  intros H. injection H as <-. simpl. rewrite Hmaps. discriminate.
Qed.

Lemma writeEach_maps outputDir options (index : nat) (files : list FileResult) :
  truthy (generateSourceMaps options) = true ->
  Forall (fun file => sourceMap file <> None) files ->
  snd (fst (writeEach outputDir options index files))
  = map (fun o => o ++ ".map") (fst (fst (writeEach outputDir options index files))).
Proof.
  intros Hmaps Hall. revert index.
  induction Hall as [|file files Hfile _ IH]; intros index; [reflexivity|].
  simpl. specialize (IH (S index)).
  destruct (writeEach outputDir options (S index) files) as [[outs maps] writes].
  rewrite Hmaps.
  destruct (sourceMap file); [|now elim Hfile].
  simpl in *. now rewrite IH.
Qed.

Lemma writeEach_no_maps outputDir options (index : nat) (files : list FileResult) :
  truthy (generateSourceMaps options) = false ->
  snd (fst (writeEach outputDir options index files)) = [].
Proof.
  intros Hmaps. revert index.
  induction files as [|file files IH]; intros index; [reflexivity|].
  simpl. specialize (IH (S index)).
  destruct (writeEach outputDir options (S index) files) as [[outs maps] writes].
  rewrite Hmaps. exact IH.
Qed.

(** When source maps are asked for, a batch that returns lists one map
    path per output path, the output path followed by [.map], in the same
    order: one for the format [single], one per file for [multiple].
    When they are not asked for, the list is absent. *)
Theorem source_maps_follow_outputs
        (fsys : fs.FileSystem) (cwd : string)
        (createSourceFile : string -> string -> ts.SourceFileNode)
        (inputPaths : list string) (options : CompressOptions)
        (result : CompressResult) (writes : list fs.Write) :
  compressFiles fsys cwd createSourceFile inputPaths options = Ok (result, writes) ->
  sourceMapFiles result
  = if truthy (generateSourceMaps options)
    then Some (map (fun o => o ++ ".map") (outputFiles result))
    else None.
Proof.
  unfold compressFiles. intros H.
  destruct (resolveInputFiles fsys inputPaths (excludePatterns options))
    as [files|e]; simpl in H; [|discriminate].
  destruct (transformFiles fsys createSourceFile files options)
    as [results|e] eqn:Hresults; simpl in H; [|discriminate].
  injection H as H. unfold generateOutput in H.
  destruct (truthy (generateSourceMaps options)) eqn:Hmaps.
  - destruct (outputFormat options).
    + injection H as <- _. reflexivity.
    + assert (Hall : Forall (fun r => sourceMap r <> None) results).
      { eapply mapi_result_all; [|exact Hresults].
        intros x j y Hy. eapply compressFile_has_map; [exact Hmaps | exact Hy]. }
      pose proof (writeEach_maps (path.join2 cwd "dist") options 0 Hmaps Hall)
        as Hnames.
      destruct (writeEach _ options 0 results) as [[outs maps] ws].
      injection H as <- _. simpl in *. now rewrite Hnames.
  - destruct (match outputFormat options with single => _ | multiple => _ end)
      as [[outs maps] ws].
    now injection H as <- _.
Qed.

Lemma source_maps_follow_outputs_witness :
  exists result writes,
    compressFiles testFiles cwd parse ["/t"] (options NONE multiple true)
    = Ok (result, writes)
    /\ sourceMapFiles result
       = if truthy (generateSourceMaps (options NONE multiple true))
         then Some (map (fun o => o ++ ".map") (outputFiles result))
         else None.
Proof.
  destruct (compressFiles testFiles cwd parse ["/t"] (options NONE multiple true))
    as [[result writes]|e] eqn:Hrun.
  - exists result, writes. split; [reflexivity|].
    exact (@source_maps_follow_outputs testFiles cwd parse ["/t"]
             (options NONE multiple true) result writes Hrun).
  - vm_compute in Hrun. discriminate.
Defined.

Lemma length_append (a b : string) :
  String.length (a ++ b) = String.length a + String.length b.
Proof. induction a as [|c a IH]; simpl; [reflexivity | now rewrite IH]. Qed.

Lemma length_join_lines (texts : list string) :
  String.length (join printer.nl texts) + 1
  = list_sum (map String.length texts) + Nat.max 1 (List.length texts).
Proof.
  induction texts as [|x texts IH]; [reflexivity|].
  destruct texts as [|y texts]; [simpl; lia|].
  change (join printer.nl (x :: y :: texts))
    with (x ++ printer.nl ++ join printer.nl (y :: texts)).
  rewrite !length_append.
  change (String.length printer.nl) with 1.
  simpl map in *. simpl list_sum in *. simpl List.length in *. lia.
Qed.

(** With the format [single] there is one output path, [compressed.ts]
    under [dist] in the working directory, also for an empty batch.  The
    text written there is the transformed texts with a line feed between
    two of them, so it is longer than [compressedSize] by one character
    for each file after the first. *)
Theorem single_output
        (cwd : string) (files : list FileResult) (options : CompressOptions) :
  outputFormat options = single ->
  outputFiles (fst (generateOutput cwd files options))
  = [path.join2 (path.join2 cwd "dist") "compressed.ts"]
  /\ In (path.join2 (path.join2 cwd "dist") "compressed.ts",
         fs.Text (join printer.nl (map transformedContent files)))
        (snd (generateOutput cwd files options))
  /\ String.length (join printer.nl (map transformedContent files))
     = compressedSize (stats (fst (generateOutput cwd files options)))
       + (List.length files - 1).
Proof.
  intros Hformat. unfold generateOutput.
  rewrite Hformat, !fold_left_lengths.
  destruct (truthy (generateSourceMaps options)); simpl;
    (split; [reflexivity|]; split; [now left|]);
    pose proof (length_join_lines (map transformedContent files)) as H;
    rewrite map_map, length_map in H; unfold totalLength; lia.
Qed.

Lemma single_output_witness :
  outputFiles (fst (generateOutput cwd [] (options MINIMAL single true)))
  = [path.join2 (path.join2 cwd "dist") "compressed.ts"]
  /\ In (path.join2 (path.join2 cwd "dist") "compressed.ts",
         fs.Text (join printer.nl (map transformedContent [])))
        (snd (generateOutput cwd [] (options MINIMAL single true)))
  /\ String.length (join printer.nl (map transformedContent []))
     = compressedSize (stats (fst (generateOutput cwd [] (options MINIMAL single true))))
       + (List.length (@nil FileResult) - 1).
Proof.
  apply (@single_output cwd [] (options MINIMAL single true)).
  reflexivity.
Defined.

Lemma writeEach_paths outputDir options (index : nat) (files : list FileResult) :
  Forall (fun file => originalPath file <> "") files ->
  fst (fst (writeEach outputDir options index files))
  = map (fun file => path.join2 outputDir (path.basename (originalPath file)))
        files.
Proof.
  intros Hall. revert index.
  induction Hall as [|file files Hfile _ IH]; intros index; [reflexivity|].
  simpl. specialize (IH (S index)).
  destruct (writeEach outputDir options (S index) files) as [[outs maps] writes].
  unfold truthy_string. rewrite (nonempty_true Hfile).
  destruct (truthy (generateSourceMaps options)), (sourceMap file); simpl in *;
    now rewrite IH.
Qed.

Lemma plainlyNamed_not_empty (p : string) : plainlyNamed p -> p <> "".
Proof. intros [H _] ->. now apply H. Qed.

(** With the format [multiple] the output path of a file is [dist] in the
    working directory joined with the base name of the file, and with
    nothing else of its path: two resolved files with the same base name,
    from whatever directories, get the same output path. *)
Theorem output_path_is_base_name
        (fsys : fs.FileSystem) (cwd : string)
        (createSourceFile : string -> string -> ts.SourceFileNode)
        (inputPaths inputFiles : list string) (options : CompressOptions)
        (result : CompressResult) (writes : list fs.Write) :
  outputFormat options = multiple ->
  resolveInputFiles fsys inputPaths (excludePatterns options) = Ok inputFiles ->
  compressFiles fsys cwd createSourceFile inputPaths options = Ok (result, writes) ->
  outputFiles result
  = map (fun p => path.join2 (path.join2 cwd "dist") (path.basename p)) inputFiles
  /\ forall i j p q,
      nth_error inputFiles i = Some p -> nth_error inputFiles j = Some q ->
      path.basename p = path.basename q ->
      nth_error (outputFiles result) i = nth_error (outputFiles result) j.
Proof.
  intros Hformat Hresolve Hrun.
  assert (Houts : outputFiles result
                  = map (fun p => path.join2 (path.join2 cwd "dist")
                                             (path.basename p)) inputFiles).
  { unfold compressFiles in Hrun. rewrite Hresolve in Hrun. simpl in Hrun.
    destruct (transformFiles fsys createSourceFile inputFiles options)
      as [results|e] eqn:Hresults; simpl in Hrun; [|discriminate].
    injection Hrun as Hrun.
    assert (Hres : result = fst (generateOutput cwd results options))
      by now rewrite Hrun.
    rewrite Hres, (generateOutput_multiple cwd results options Hformat).
    assert (Hpaths : map originalPath results = inputFiles).
    { eapply mapi_result_inverse; [|exact Hresults].
      intros x j y Hy. eapply compressFile_keeps_path. exact Hy. }
    rewrite writeEach_paths.
    - now rewrite <- Hpaths, map_map.
    - apply (@resolveLoop_plain fsys _ inputPaths [] inputFiles) in Hresolve;
        [|constructor].
      rewrite <- Hpaths in Hresolve. rewrite Forall_map in Hresolve.
      eapply Forall_impl; [|exact Hresolve].
      intros r Hr. now apply plainlyNamed_not_empty. }
  split; [exact Houts|].
  intros i j p q Hp Hq Hbase.
  rewrite Houts, !nth_error_map, Hp, Hq. simpl. now rewrite Hbase.
Qed.

Lemma output_path_is_base_name_witness :
  exists result writes,
    compressFiles Cases.oddFiles cwd parse ["/o/a.ts"; "/p"]
                  (options MINIMAL multiple false) = Ok (result, writes)
    /\ outputFiles result
       = map (fun p => path.join2 (path.join2 cwd "dist") (path.basename p))
             ["/o/a.ts"; "/p/a.ts"]
    /\ forall i j p q,
        nth_error ["/o/a.ts"; "/p/a.ts"] i = Some p ->
        nth_error ["/o/a.ts"; "/p/a.ts"] j = Some q ->
        path.basename p = path.basename q ->
        nth_error (outputFiles result) i = nth_error (outputFiles result) j.
Proof.
  destruct (compressFiles Cases.oddFiles cwd parse ["/o/a.ts"; "/p"]
                          (options MINIMAL multiple false))
    as [[result writes]|e] eqn:Hrun.
  - exists result, writes. split; [reflexivity|].
    apply (@output_path_is_base_name Cases.oddFiles cwd parse ["/o/a.ts"; "/p"]
             ["/o/a.ts"; "/p/a.ts"] (options MINIMAL multiple false)
             result writes); [reflexivity | reflexivity | exact Hrun].
  - vm_compute in Hrun. discriminate.
Defined.

Lemma writeEach_written outputDir options (index : nat) (files : list FileResult)
      (p : string) :
  In p (map fst (snd (writeEach outputDir options index files)))
  <-> In p (fst (fst (writeEach outputDir options index files)))
      \/ In p (snd (fst (writeEach outputDir options index files))).
Proof.
  revert index.
  induction files as [|file files IH]; intros index; simpl; [tauto|].
  specialize (IH (S index)).
  destruct (writeEach outputDir options (S index) files) as [[outs maps] writes].
  destruct (truthy (generateSourceMaps options)), (sourceMap file);
    simpl in *; tauto.
Qed.

(** The paths that [generateOutput] writes are the output paths and the
    map paths that it computes, and no other; the map paths are the ones
    in [sourceMapFiles] when that list is present. *)
Theorem written_paths_are_reported
        (cwd : string) (files : list FileResult) (options : CompressOptions)
        (p : string) :
  In p (map fst (snd (generateOutput cwd files options)))
  <-> In p (outputFiles (fst (generateOutput cwd files options)))
      \/ (truthy (generateSourceMaps options) = true
          /\ exists maps,
              sourceMapFiles (fst (generateOutput cwd files options)) = Some maps
              /\ In p maps).
Proof.
  unfold generateOutput.
  destruct (outputFormat options).
  - destruct (truthy (generateSourceMaps options)) eqn:Hmaps; simpl.
    + split.
      * intros [<-|[<-|[]]]; [left; left; reflexivity|].
        right. split; [reflexivity|].
        eexists. split; [reflexivity | left; reflexivity].
      * intros [[<-|[]]|[_ [maps [E Hin]]]]; [left; reflexivity|].
        injection E as <-. destruct Hin as [<-|[]]. right. left. reflexivity.
    + split.
      * intros [<-|[]]. left. left. reflexivity.
      * intros [[<-|[]]|[H _]]; [left; reflexivity | discriminate].
  - pose proof (writeEach_written (path.join2 cwd "dist") options 0 files p) as Hw.
    pose proof (@writeEach_no_maps (path.join2 cwd "dist") options 0 files) as Hno.
    destruct (writeEach _ options 0 files) as [[outs maps] writes].
    simpl in *.
    destruct (truthy (generateSourceMaps options)) eqn:Hmaps.
    + rewrite Hw. split.
      * intros [H|H]; [left; exact H|].
        right. split; [reflexivity|]. exists maps. split; [reflexivity | exact H].
      * intros [H|[_ [maps' [E H]]]]; [left; exact H|].
        injection E as <-. right. exact H.
    + rewrite Hw, (Hno eq_refl). split.
      * intros [H|[]]. left. exact H.
      * intros [H|[H _]]; [left; exact H | discriminate].
Qed.

(** * Properties of the logger and of the command line *)

(** For every whole percentage from 0 to 100, [createProgressBar] throws
    nothing and returns a bar of 32 characters: an opening bracket,
    [(3p + 5) / 10] equal signs, spaces up to 30 places, a closing
    bracket. *)
Theorem progress_bar_shape (p : nat) :
  p <= 100 ->
  Logger.createProgressBar (number_of_nat p) 30%float = Logger.Normal (barOf p)
  /\ String.length (barOf p) = 32.
Proof.
  intros Hp.
  assert (Hall : forallb barAgrees (seq 0 101) = true) by (vm_compute; reflexivity).
  rewrite forallb_forall in Hall.
  assert (Hin : In p (seq 0 101)) by (apply in_seq; lia).
  specialize (Hall p Hin). unfold barAgrees in Hall.
  destruct (Logger.createProgressBar (number_of_nat p) 30%float) as [bar|];
    [|discriminate].
  apply andb_prop in Hall as [Hbar Hlen].
  apply String.eqb_eq in Hbar. apply Nat.eqb_eq in Hlen.
  subst bar. split; [reflexivity | exact Hlen].
Qed.

Lemma progress_bar_shape_witness :
  Logger.createProgressBar (number_of_nat 50) 30%float = Logger.Normal (barOf 50)
  /\ String.length (barOf 50) = 32.
Proof. apply (@progress_bar_shape 50). lia. Defined.

Lemma levelOf_cases (key : string) :
  cli.levelOf key
  = if String.eqb key "NONE" then Some NONE
    else if String.eqb key "MINIMAL" then Some MINIMAL
    else if String.eqb key "AGGRESSIVE" then Some AGGRESSIVE
    else if existsb (String.eqb key) cli.inheritedKeys then None
    else Some MINIMAL.
Proof.
  unfold cli.levelOf, cli.inCompressionLevel, cli.enumMember.
  destruct (String.eqb key "NONE"); [reflexivity|].
  destruct (String.eqb key "MINIMAL"); [reflexivity|].
  destruct (String.eqb key "AGGRESSIVE"); [reflexivity|].
  now destruct (existsb (String.eqb key) cli.inheritedKeys).
Qed.

(** The command line selects AGGRESSIVE only for the level written
    [AGGRESSIVE] and NONE only for [NONE], the keys of the enum; the
    values the enum holds, in lower case, are no keys of it. *)
Theorem cli_level_is_looked_up_by_key (key : string) :
  (cli.levelOf key = Some AGGRESSIVE <-> key = "AGGRESSIVE")
  /\ (cli.levelOf key = Some NONE <-> key = "NONE").
Proof.
  rewrite levelOf_cases.
  destruct (String.eqb_spec key "NONE") as [->|Hnone].
  { split; split; try discriminate; reflexivity. }
  destruct (String.eqb_spec key "MINIMAL") as [->|Hminimal].
  { split; split; discriminate. }
  destruct (String.eqb_spec key "AGGRESSIVE") as [->|Haggressive].
  { split; split; try discriminate; reflexivity. }
  destruct (existsb (String.eqb key) cli.inheritedKeys);
    split; split; try discriminate; intros ->; congruence.
Qed.

(** With any of the documented values of [--level], [none] and
    [aggressive] included, the options that [main] builds have the level
    MINIMAL: the compressor then renames nothing and prints every file
    without its comments. *)
Theorem cli_documented_levels_are_minimal
        (opts : cli.ProgramOpts) (file : cli.Config) :
  In (cli.level opts) documentedLevels ->
  exists options,
    cli.compressOptions opts file = Some options
    /\ level options = MINIMAL
    /\ forall sourceFile generator,
        transformSourceFile sourceFile options generator
        = (printer.printFile true sourceFile, generator).
Proof.
  intros Hlevel. unfold cli.compressOptions.
  assert (Hof : cli.levelOf (cli.level opts) = Some MINIMAL).
  { destruct Hlevel as [<-|[<-|[<-|[]]]]; reflexivity. }
  rewrite Hof. eexists. split; [reflexivity|]. split; [reflexivity|].
  intros sourceFile generator.
  unfold transformSourceFile, createTransformer.
  rewrite visitor_unfold. simpl.
  now rewrite minimalCompression_changes_nothing_aux.
Qed.

Lemma cli_documented_levels_are_minimal_witness :
  exists options,
    cli.compressOptions
      (cli.mkOpts (Some ["/src"]) "dist" "aggressive" "single" false false None)
      cli.emptyConfig = Some options
    /\ level options = MINIMAL
    /\ forall sourceFile generator,
        transformSourceFile sourceFile options generator
        = (printer.printFile true sourceFile, generator).
Proof.
  apply (@cli_documented_levels_are_minimal
           (cli.mkOpts (Some ["/src"]) "dist" "aggressive" "single" false false None)
           cli.emptyConfig).
  right. right. left. reflexivity.
Defined.

(** ** The map file of the format [single] *)

Lemma compressFile_map fsys createSourceFile filePath options i n r :
  truthy (generateSourceMaps options) = true ->
  compressFile fsys createSourceFile filePath options i n = Ok r ->
  sourceMap r = Some (sourcemap.mkRaw 3 (path.basename (originalPath r)) []).
Proof.
  intros Hmaps. unfold compressFile.
  destruct (fs.readFileSync fsys filePath); simpl; [|discriminate].
  intros H. injection H as <-. simpl. now rewrite Hmaps.
Qed.

Lemma definedMaps_all (files : list FileResult) :
  Forall (fun r => sourceMap r
                   = Some (sourcemap.mkRaw 3 (path.basename (originalPath r)) []))
         files ->
  definedMaps files
  = map (fun r => sourcemap.mkRaw 3 (path.basename (originalPath r)) []) files.
Proof.
  induction 1 as [|r files Hr _ IH]; simpl; [reflexivity|].
  now rewrite Hr, IH.
Qed.

(** With the format [single] and source maps asked for, what is written
    to [compressed.ts.map] is one map for each resolved file, in order,
    each naming the base name of its file and holding no mapping: the
    maps of the files, one after the other, not one map of the combined
    file. *)
Theorem single_map_file_holds_a_map_per_file
        (fsys : fs.FileSystem) (cwd : string)
        (createSourceFile : string -> string -> ts.SourceFileNode)
        (inputPaths inputFiles : list string) (options : CompressOptions)
        (result : CompressResult) (writes : list fs.Write) :
  outputFormat options = single ->
  truthy (generateSourceMaps options) = true ->
  resolveInputFiles fsys inputPaths (excludePatterns options) = Ok inputFiles ->
  compressFiles fsys cwd createSourceFile inputPaths options = Ok (result, writes) ->
  In (path.join2 (path.join2 cwd "dist") "compressed.ts" ++ ".map",
      fs.MapText (map (fun p => sourcemap.mkRaw 3 (path.basename p) []) inputFiles))
     writes.
Proof.
  intros Hformat Hmaps Hresolve Hrun.
  unfold compressFiles in Hrun. rewrite Hresolve in Hrun. simpl in Hrun.
  destruct (transformFiles fsys createSourceFile inputFiles options)
    as [results|e] eqn:Hresults; simpl in Hrun; [|discriminate].
  injection Hrun as Hrun. unfold generateOutput in Hrun.
  rewrite Hformat, Hmaps in Hrun. injection Hrun as _ <-.
  right. left. f_equal. f_equal.
  assert (Hpaths : map originalPath results = inputFiles).
  { eapply mapi_result_inverse; [|exact Hresults].
    intros x j y Hy. eapply compressFile_keeps_path. exact Hy. }
  rewrite definedMaps_all.
  - now rewrite <- Hpaths, map_map.
  - eapply mapi_result_all; [|exact Hresults].
    intros x j y Hy. eapply compressFile_map; [exact Hmaps | exact Hy].
Qed.

Lemma single_map_file_holds_a_map_per_file_witness :
  exists result writes,
    compressFiles testFiles cwd parse ["/t"] (options MINIMAL single true)
    = Ok (result, writes)
    /\ In (path.join2 (path.join2 cwd "dist") "compressed.ts" ++ ".map",
           fs.MapText (map (fun p => sourcemap.mkRaw 3 (path.basename p) [])
                           ["/t/include.ts"; "/t/exclude.ts"]))
          writes.
Proof.
  destruct (compressFiles testFiles cwd parse ["/t"] (options MINIMAL single true))
    as [[result writes]|e] eqn:Hrun.
  - exists result, writes. split; [reflexivity|].
    apply (@single_map_file_holds_a_map_per_file testFiles cwd parse ["/t"]
             ["/t/include.ts"; "/t/exclude.ts"] (options MINIMAL single true)
             result writes); [reflexivity | reflexivity | reflexivity | exact Hrun].
  - vm_compute in Hrun. discriminate.
Defined.
